(** * app/core/logging.py: context-scoped actor tagging and sink routing

    A shallow embedding of [src/app/core/logging.py] together with the parts
    of the Python standard library it drives ([os], [pathlib], [os.path],
    [contextvars], [logging]), followed by the properties of the module.

    Conventions.
    - Python [str] is [string]; path handling is the POSIX flavour.
    - Mutable process state (environment, working directory, file system,
      the context variable, the logger registry, what the sinks received)
      is one record [World]; statements are computations in a state and
      exception monad [M].
    - Python functions keep their names; a method [C.m] is [C_m]. *)

From Stdlib Require Import ZArith Ascii String List Lia DecimalString.
From stdpp Require Import base option list gmap strings.

Local Open Scope string_scope.
Local Open Scope list_scope.
Local Open Scope Z_scope.

(** ** Python strings *)

Module pystr.

Definition eqb_char (a b : ascii) : bool := Ascii.eqb a b.

(** [str.upper] on ASCII text: [a]..[z] go to [A]..[Z].  Characters
    outside ASCII are left as they are here; Python applies the Unicode
    case mapping to them, so statements that depend on [upper] are made
    for ASCII strings ([is_ascii]). *)
Definition upper_char (c : ascii) : ascii :=
  let n := N_of_ascii c in
  if ((97 <=? n) && (n <=? 122))%N then ascii_of_N (n - 32) else c.

Fixpoint upper (s : string) : string :=
  match s with
  | EmptyString => EmptyString
  | String c s' => String (upper_char c) (upper s')
  end.

Fixpoint is_ascii (s : string) : bool :=
  match s with
  | EmptyString => true
  | String c s' => (N_of_ascii c <? 128)%N && is_ascii s'
  end.

(** [s.replace(old, new)] for one-character [old] and [new], the only
    form the module uses. *)
Fixpoint replace (old new : ascii) (s : string) : string :=
  match s with
  | EmptyString => EmptyString
  | String c s' =>
      String (if eqb_char c old then new else c) (replace old new s')
  end.

(** [s.split(sep)] for a one-character separator. *)
Fixpoint split (sep : ascii) (s : string) : list string :=
  match s with
  | EmptyString => [EmptyString]
  | String c s' =>
      if eqb_char c sep then EmptyString :: split sep s'
      else match split sep s' with
           | w :: ws => String c w :: ws
           | [] => [String c EmptyString]
           end
  end.

(** [sep.join(parts)] *)
Definition join (sep : string) (parts : list string) : string :=
  String.concat sep parts.

Definition startswith (p s : string) : bool := String.prefix p s.

Fixpoint last_char (s : string) : option ascii :=
  match s with
  | EmptyString => None
  | String c EmptyString => Some c
  | String _ s' => last_char s'
  end.

Definition endswith_char (c : ascii) (s : string) : bool :=
  match last_char s with
  | Some d => eqb_char c d
  | None => false
  end.

(** Truthiness of a string: [bool(s)]. *)
Definition truthy (s : string) : bool :=
  match s with EmptyString => false | _ => true end.

(** [x or d] for an optional string [x]: [None] and the empty string are
    both falsy. *)
Definition or_default (x : option string) (d : string) : string :=
  match x with
  | Some s => if truthy s then s else d
  | None => d
  end.

(** [str(n)] for an integer. *)
Definition of_Z (n : Z) : string := NilZero.string_of_int (Z.to_int n).

End pystr.

(** ** [os.path] (posixpath) *)

Module posixpath.

Definition sep : ascii := "/"%char.

Definition isabs (s : string) : bool := pystr.startswith "/" s.

(** [os.path.join(a, b)] *)
Definition join (a b : string) : string :=
  if pystr.startswith "/" b then b
  else if negb (pystr.truthy a) || pystr.endswith_char sep a then a +:+ b
  else a +:+ "/" +:+ b.

(** One step of the loop of [normpath] over the components. *)
Definition norm_step (initial_slashes : nat) (new_comps : list string)
    (comp : string) : list string :=
  if bool_decide (comp = "") || bool_decide (comp = ".") then new_comps
  else if negb (bool_decide (comp = ".."))
          || (bool_decide (initial_slashes = 0%nat)
              && bool_decide (new_comps = []))
          || bool_decide (last new_comps = Some "..")
       then new_comps ++ [comp]
       else removelast new_comps.

Definition normpath (path : string) : string :=
  if negb (pystr.truthy path) then "."
  else
    let initial_slashes : nat :=
      if pystr.startswith "/" path then
        if pystr.startswith "//" path && negb (pystr.startswith "///" path)
        then 2%nat else 1%nat
      else 0%nat in
    let comps := fold_left (norm_step initial_slashes)
                           (pystr.split sep path) [] in
    let p := pystr.join "/" comps in
    let p := match initial_slashes with
             | O => p
             | S O => "/" +:+ p
             | _ => "//" +:+ p
             end in
    if pystr.truthy p then p else ".".

(** [os.path.abspath(path)] with the working directory made explicit. *)
Definition abspath (cwd path : string) : string :=
  normpath (if isabs path then path else join cwd path).

End posixpath.

(** ** [pathlib.Path] (PurePosixPath part) *)

Module pathlib.

Record Path := mkPath { root : string; parts : list string }.

Definition splitroot (p : string) : string * string :=
  match p with
  | String "/" (String "/" (String "/" r)) => ("/", "//" +:+ r)
  | String "/" (String "/" r) => ("//", r)
  | String "/" r => ("/", r)
  | _ => ("", p)
  end.

Definition keep_part (x : string) : bool :=
  negb (bool_decide (x = "")) && negb (bool_decide (x = ".")).

(** [Path(s)] *)
Definition of_str (s : string) : Path :=
  let '(r, rel) := splitroot s in
  mkPath r (List.filter keep_part (pystr.split posixpath.sep rel)).

(** [str(p)] *)
Definition to_str (p : Path) : string :=
  let s := root p +:+ pystr.join "/" (parts p) in
  if pystr.truthy s then s else ".".

(** [p / key] *)
Definition div (p : Path) (key : string) : Path :=
  let q := of_str key in
  if pystr.truthy (root q) then q
  else mkPath (root p) (parts p ++ parts q).

End pathlib.

(** ** Python values that can reach [setLevel] *)

Inductive PyObj :=
| PyInt (n : Z)
| PyStr (s : string)
| PyDict.

Inductive Exn :=
| OSError (path : string)
| ValueError (msg : string)
| TypeError (msg : string)
| RuntimeError (msg : string).

(** ** Data of the [logging] package *)

Module logging.

Definition CRITICAL : Z := 50.
Definition FATAL : Z := CRITICAL.
Definition ERROR : Z := 40.
Definition WARNING : Z := 30.
Definition WARN : Z := WARNING.
Definition INFO : Z := 20.
Definition DEBUG : Z := 10.
Definition NOTSET : Z := 0.

Definition BASIC_FORMAT : string := "%(levelname)s:%(name)s:%(message)s".

(** [getattr(logging, name, None)] for the names that [str.upper] can
    return.  These ten are the attributes of the package whose names have
    no lower-case letter; every other attribute ([Logger], [getLogger],
    [handlers], [__name__], ...) has one, so an upper-cased name never
    reaches it. *)
Definition getattr_upper (name : string) : option PyObj :=
  if bool_decide (name = "CRITICAL") then Some (PyInt CRITICAL)
  else if bool_decide (name = "FATAL") then Some (PyInt FATAL)
  else if bool_decide (name = "ERROR") then Some (PyInt ERROR)
  else if bool_decide (name = "WARNING") then Some (PyInt WARNING)
  else if bool_decide (name = "WARN") then Some (PyInt WARN)
  else if bool_decide (name = "INFO") then Some (PyInt INFO)
  else if bool_decide (name = "DEBUG") then Some (PyInt DEBUG)
  else if bool_decide (name = "NOTSET") then Some (PyInt NOTSET)
  else if bool_decide (name = "BASIC_FORMAT") then Some (PyStr BASIC_FORMAT)
  else if bool_decide (name = "_STYLES") then Some PyDict
  else None.

(** [_nameToLevel] *)
Definition nameToLevel (name : string) : option Z :=
  if bool_decide (name = "CRITICAL") then Some CRITICAL
  else if bool_decide (name = "FATAL") then Some FATAL
  else if bool_decide (name = "ERROR") then Some ERROR
  else if bool_decide (name = "WARN") then Some WARNING
  else if bool_decide (name = "WARNING") then Some WARNING
  else if bool_decide (name = "INFO") then Some INFO
  else if bool_decide (name = "DEBUG") then Some DEBUG
  else if bool_decide (name = "NOTSET") then Some NOTSET
  else None.

(** [getLevelName(level)] for an integer level. *)
Definition getLevelName (level : Z) : string :=
  if level =? CRITICAL then "CRITICAL"
  else if level =? ERROR then "ERROR"
  else if level =? WARNING then "WARNING"
  else if level =? INFO then "INFO"
  else if level =? DEBUG then "DEBUG"
  else if level =? NOTSET then "NOTSET"
  else "Level " +:+ pystr.of_Z level.

(** [_checkLevel(level)] *)
Definition checkLevel (level : PyObj) : Exn + Z :=
  match level with
  | PyInt n => inr n
  | PyStr s =>
      match nameToLevel s with
      | Some n => inr n
      | None => inl (ValueError ("Unknown level: " +:+ s))
      end
  | PyDict => inl (TypeError "Level not an integer or a valid string")
  end.

(** The one filter class of the application; it has no fields. *)
Inductive Filter := UserContextFilter.

Record Formatter := mkFormatter { fmt : string; datefmt : option string }.

Definition defaultFormatter : Formatter := mkFormatter "%(message)s" None.

(** Where a handler writes: [sys.stderr] or the file it opened. *)
Inductive Stream :=
| Stderr
| File (baseFilename : string).

Inductive HandlerClass :=
| StreamHandler
| RotatingFileHandler (baseFilename : string) (maxBytes backupCount : Z)
    (encoding : string).

Record Handler := mkHandler {
  h_class : HandlerClass;
  h_level : Z;
  h_formatter : option Formatter;
  h_filters : list Filter
}.

Record Logger := mkLogger {
  l_level : Z;
  l_handlers : list Handler
}.

(** A logger object is referred to by what [getLogger] resolved it to. *)
Inductive LoggerRef :=
| Root
| Named (name : string).

(** The attributes of a record that the format strings read.  [asctime]
    is the creation time already rendered with the formatter's date
    format; [user] is absent until a filter sets it. *)
Record LogRecord := mkRecord {
  r_name : string;
  r_levelno : Z;
  r_message : string;
  r_asctime : string;
  r_user : option string
}.

Definition stream_of (h : Handler) : Stream :=
  match h_class h with
  | StreamHandler => Stderr
  | RotatingFileHandler f _ _ _ => File f
  end.

(** [%]-formatting of [fmt % record.__dict__] for [%(key)s] fields. *)
Inductive FmtState :=
| FLit
| FPercent
| FKey (acc : string)
| FConv (key : string).

Fixpoint percent_format (d : string -> option string) (st : FmtState)
    (s : string) : option string :=
  match s with
  | EmptyString => match st with FLit => Some EmptyString | _ => None end
  | String c s' =>
      match st with
      | FLit =>
          if pystr.eqb_char c "%" then percent_format d FPercent s'
          else String c <$> percent_format d FLit s'
      | FPercent =>
          if pystr.eqb_char c "(" then percent_format d (FKey "") s'
          else if pystr.eqb_char c "%"
               then String c <$> percent_format d FLit s'
               else None
      | FKey acc =>
          if pystr.eqb_char c ")" then percent_format d (FConv acc) s'
          else percent_format d (FKey (acc +:+ String c EmptyString)) s'
      | FConv key =>
          if pystr.eqb_char c "s"
          then match d key with
               | Some v => (fun t => v +:+ t) <$> percent_format d FLit s'
               | None => None
               end
          else None
      end
  end.

(** [record.__dict__] restricted to the keys used in format strings. *)
Definition record_dict (r : LogRecord) (key : string) : option string :=
  if bool_decide (key = "asctime") then Some (r_asctime r)
  else if bool_decide (key = "levelname") then Some (getLevelName (r_levelno r))
  else if bool_decide (key = "name") then Some (r_name r)
  else if bool_decide (key = "message") then Some (r_message r)
  else if bool_decide (key = "user") then r_user r
  else None.

(** [Formatter.format(record)]; [None] is a formatting error. *)
Definition Formatter_format (f : Formatter) (r : LogRecord) : option string :=
  percent_format (record_dict r) FLit (fmt f).

(** [Handler.format(record)] *)
Definition Handler_format (h : Handler) (r : LogRecord) : option string :=
  Formatter_format (default defaultFormatter (h_formatter h)) r.

End logging.

Import logging.

(** ** The process state *)

(** A [contextvars.Token]: the value to go back to ([None] when the
    variable had no value) and its one-shot flag. *)
Record TokenObj := mkToken {
  tok_old_value : option string;
  tok_used : bool
}.

(** Tokens are handed out as references into [tokens]. *)
Abbreviation Token := nat.

Record World := mkWorld {
  environ : gmap string string;      (* os.environ *)
  cwd : string;                      (* os.getcwd() *)
  fs_denied : gset string;           (* paths the OS refuses to create or open *)
  fs_dirs : gset string;             (* directories made by this process *)
  fs_files : gset string;            (* files opened for append *)
  ctx_current_user : option string;  (* value of _current_user in the Context *)
  tokens : list TokenObj;
  root_logger : Logger;              (* logging.root *)
  loggerDict : gmap string Logger;   (* Logger.manager.loggerDict *)
  emitted : list (Stream * string)   (* lines given to the sinks, in order *)
}.

Definition set_environ (e : gmap string string) (w : World) : World :=
  mkWorld e (cwd w) (fs_denied w) (fs_dirs w) (fs_files w)
    (ctx_current_user w) (tokens w) (root_logger w) (loggerDict w) (emitted w).

Definition set_fs_dirs (d : gset string) (w : World) : World :=
  mkWorld (environ w) (cwd w) (fs_denied w) d (fs_files w)
    (ctx_current_user w) (tokens w) (root_logger w) (loggerDict w) (emitted w).

Definition set_fs_files (f : gset string) (w : World) : World :=
  mkWorld (environ w) (cwd w) (fs_denied w) (fs_dirs w) f
    (ctx_current_user w) (tokens w) (root_logger w) (loggerDict w) (emitted w).

Definition set_ctx (u : option string) (ts : list TokenObj) (w : World) : World :=
  mkWorld (environ w) (cwd w) (fs_denied w) (fs_dirs w) (fs_files w)
    u ts (root_logger w) (loggerDict w) (emitted w).

Definition set_root_logger (l : Logger) (w : World) : World :=
  mkWorld (environ w) (cwd w) (fs_denied w) (fs_dirs w) (fs_files w)
    (ctx_current_user w) (tokens w) l (loggerDict w) (emitted w).

Definition set_loggerDict (d : gmap string Logger) (w : World) : World :=
  mkWorld (environ w) (cwd w) (fs_denied w) (fs_dirs w) (fs_files w)
    (ctx_current_user w) (tokens w) (root_logger w) d (emitted w).

Definition set_emitted (e : list (Stream * string)) (w : World) : World :=
  mkWorld (environ w) (cwd w) (fs_denied w) (fs_dirs w) (fs_files w)
    (ctx_current_user w) (tokens w) (root_logger w) (loggerDict w) e.

(** A fresh interpreter: no environment overrides, nothing refused by the
    file system, the context variable unset, the root logger at WARNING
    with no handler, no named logger. *)
Definition fresh_world (dir : string) : World :=
  mkWorld ∅ dir ∅ ∅ ∅ None [] (mkLogger WARNING []) ∅ [].

(** ** State and exception monad *)

Inductive Res (A : Type) :=
| Ret (a : A) (w : World)
| Raise (e : Exn) (w : World).
Arguments Ret {A} a w.
Arguments Raise {A} e w.

Definition M (A : Type) : Type := World -> Res A.

Definition ret {A} (a : A) : M A := fun w => Ret a w.
Definition raise {A} (e : Exn) : M A := fun w => Raise e w.
Definition bind {A B} (c : M A) (k : A -> M B) : M B :=
  fun w => match c w with
           | Ret a w' => k a w'
           | Raise e w' => Raise e w'
           end.
Definition get_world : M World := fun w => Ret w w.
Definition modify (f : World -> World) : M unit := fun w => Ret tt (f w).

Notation "'let*' x ':=' c 'in' k" := (bind c (fun x => k))
  (at level 10, x name, c at level 100, k at level 200).
Notation "c ';;' k" := (bind c (fun _ => k))
  (at level 100, k at level 200, right associativity).

(** The world a computation leaves behind, whether it returned or raised. *)
Definition world_of {A} (r : Res A) : World :=
  match r with Ret _ w => w | Raise _ w => w end.

Definition returns {A} (r : Res A) : bool :=
  match r with Ret _ _ => true | Raise _ _ => false end.

Fixpoint repeat_M (n : nat) (c : M unit) : M unit :=
  match n with
  | O => ret tt
  | S n' => c ;; repeat_M n' c
  end.

(** ** [os] and [pathlib] operations on the world *)

(** [os.getenv(key, default)] *)
Definition os_getenv (key dflt : string) : M string :=
  fun w => Ret (default dflt (environ w !! key)) w.

(** [os.environ[key] = value], what a caller does to change configuration. *)
Definition os_environ_setitem (key value : string) : M unit :=
  modify (fun w => set_environ (<[key := value]> (environ w)) w).

(** [p.mkdir(parents=True, exist_ok=True)]: an existing directory is fine;
    a path the OS refuses raises. *)
Definition Path_mkdir (p : pathlib.Path) : M unit :=
  fun w =>
    let d := posixpath.abspath (cwd w) (pathlib.to_str p) in
    if bool_decide (d ∈ fs_denied w) then Raise (OSError d) w
    else Ret tt (set_fs_dirs ({[d]} ∪ fs_dirs w) w).

(** ** [contextvars]: the variable [_current_user] *)

(** [_current_user = contextvars.ContextVar("current_user", default="-")] *)
Definition _current_user_default : string := "-".

(** [_current_user.get()] *)
Definition ContextVar_get : M string :=
  fun w => Ret (default _current_user_default (ctx_current_user w)) w.

(** [_current_user.set(value)]: a new token remembers the old binding. *)
Definition ContextVar_set (value : string) : M Token :=
  fun w =>
    let tok := length (tokens w) in
    Ret tok (set_ctx (Some value)
                     (tokens w ++ [mkToken (ctx_current_user w) false]) w).

(** [_current_user.reset(token)]: a token is good for one reset; an old
    binding of "no value" removes the variable from the context.  A
    reference that is not in the store stands for a token made in another
    context. *)
Definition ContextVar_reset (token : Token) : M unit :=
  fun w =>
    match tokens w !! token with
    | None => Raise (ValueError "Token was created in a different Context") w
    | Some t =>
        if tok_used t
        then Raise (RuntimeError "Token has already been used once") w
        else Ret tt (set_ctx (tok_old_value t)
                             (<[token := mkToken (tok_old_value t) true]> (tokens w))
                             w)
    end.

(** ** [logging]: loggers and handlers on the world *)

(** [logging.getLogger(name)]: no name, the empty name and the name of the
    root logger give the root logger; any other name gives the logger
    registered under it, created at level NOTSET without handlers the
    first time. *)
Definition logging_getLogger (name : option string) : M LoggerRef :=
  fun w =>
    match name with
    | None => Ret Root w
    | Some n =>
        if negb (pystr.truthy n) || bool_decide (n = "root") then Ret Root w
        else match loggerDict w !! n with
             | Some _ => Ret (Named n) w
             | None =>
                 Ret (Named n)
                     (set_loggerDict (<[n := mkLogger NOTSET []]> (loggerDict w)) w)
             end
    end.

(** The object behind a reference.  References come from
    [logging_getLogger], which registers the name first. *)
Definition logger_of (w : World) (l : LoggerRef) : Logger :=
  match l with
  | Root => root_logger w
  | Named n => default (mkLogger NOTSET []) (loggerDict w !! n)
  end.

Definition update_logger (l : LoggerRef) (f : Logger -> Logger) : M unit :=
  fun w =>
    match l with
    | Root => Ret tt (set_root_logger (f (root_logger w)) w)
    | Named n =>
        Ret tt (set_loggerDict (<[n := f (logger_of w l)]> (loggerDict w)) w)
    end.

(** [logger.handlers] *)
Definition Logger_handlers (l : LoggerRef) : M (list Handler) :=
  fun w => Ret (l_handlers (logger_of w l)) w.

Definition lift_check {A} (r : Exn + A) : M A :=
  match r with
  | inl e => raise e
  | inr a => ret a
  end.

(** [logger.setLevel(level)] *)
Definition Logger_setLevel (l : LoggerRef) (level : PyObj) : M unit :=
  let* n := lift_check (checkLevel level) in
  update_logger l (fun lg => mkLogger n (l_handlers lg)).

(** [logger.addHandler(hdlr)].  The handler is always one that was just
    constructed, so the identity test [hdlr in self.handlers] of the
    library is false and the handler is appended. *)
Definition Logger_addHandler (l : LoggerRef) (h : Handler) : M unit :=
  update_logger l (fun lg => mkLogger (l_level lg) (l_handlers lg ++ [h])).

(** [logging.StreamHandler()] writes to [sys.stderr]. *)
Definition StreamHandler_new : M Handler :=
  ret (mkHandler StreamHandler NOTSET None []).

(** [RotatingFileHandler(filename, maxBytes=, backupCount=, encoding=)]:
    keeps the absolute path as [baseFilename] and opens the file for
    append at once. *)
Definition RotatingFileHandler_new (filename : pathlib.Path)
    (maxBytes backupCount : Z) (encoding : string) : M Handler :=
  fun w =>
    let base := posixpath.abspath (cwd w) (pathlib.to_str filename) in
    if bool_decide (base ∈ fs_denied w) then Raise (OSError base) w
    else Ret (mkHandler (RotatingFileHandler base maxBytes backupCount encoding)
                        NOTSET None [])
             (set_fs_files ({[base]} ∪ fs_files w) w).

(** [hdlr.setLevel(level)], on a handler that is still a local variable. *)
Definition Handler_setLevel (h : Handler) (level : PyObj) : M Handler :=
  let* n := lift_check (checkLevel level) in
  ret (mkHandler (h_class h) n (h_formatter h) (h_filters h)).

(** [hdlr.setFormatter(fmt)] *)
Definition Handler_setFormatter (h : Handler) (f : Formatter) : Handler :=
  mkHandler (h_class h) (h_level h) (Some f) (h_filters h).

(** [hdlr.addFilter(filter)].  It is only called on a handler that was
    just constructed and has no filter yet, so the test
    [filter in self.filters] of the library is false and the filter is
    appended. *)
Definition Handler_addFilter (h : Handler) (f : Filter) : Handler :=
  mkHandler (h_class h) (h_level h) (h_formatter h) (h_filters h ++ [f]).

(** ** The module [app/core/logging.py] *)

(** [set_log_user(user)] *)
Definition set_log_user (user : option string) : M Token :=
  ContextVar_set (pystr.or_default user "-").

(** [reset_log_user(token)] *)
Definition reset_log_user (token : Token) : M unit :=
  ContextVar_reset token.

(** [_UserContextFilter.filter(record)]: sets [record.user] and admits. *)
Definition UserContextFilter_filter (record : LogRecord)
    : M (bool * LogRecord) :=
  let* u := ContextVar_get in
  ret (true, mkRecord (r_name record) (r_levelno record) (r_message record)
                      (r_asctime record) (Some u)).

(** [_get_log_dir()] *)
Definition _get_log_dir : M pathlib.Path :=
  let* v := os_getenv "LOG_DIR" "logs" in
  let log_dir := pathlib.of_str v in
  Path_mkdir log_dir ;;
  ret log_dir.

(** [_get_log_level()]: whatever attribute of [logging] the upper-cased
    name designates, [logging.INFO] when there is none. *)
Definition _get_log_level : M PyObj :=
  let* v := os_getenv "LOG_LEVEL" "INFO" in
  let level_name := pystr.upper v in
  ret (default (PyInt INFO) (getattr_upper level_name)).

(** [_get_formatter()] *)
Definition _get_formatter : Formatter :=
  mkFormatter "%(asctime)s %(levelname)s %(name)s user=%(user)s %(message)s"
              (Some "%Y-%m-%d %H:%M:%S").

Definition five_MiB : Z := 5 * 1024 * 1024.

(** [setup_logging()] *)
Definition setup_logging : M unit :=
  let* log_dir := _get_log_dir in
  let* level := _get_log_level in
  let* root := logging_getLogger None in
  let* handlers := Logger_handlers root in
  if negb (bool_decide (handlers = [])) then ret tt
  else
    Logger_setLevel root level ;;
    let formatter := _get_formatter in
    let user_filter := UserContextFilter in
    let* console_handler := StreamHandler_new in
    let* console_handler := Handler_setLevel console_handler level in
    let console_handler := Handler_setFormatter console_handler formatter in
    let console_handler := Handler_addFilter console_handler user_filter in
    let* app_file :=
      RotatingFileHandler_new (pathlib.div log_dir "app.log") five_MiB 5 "utf-8" in
    let* app_file := Handler_setLevel app_file level in
    let app_file := Handler_setFormatter app_file formatter in
    let app_file := Handler_addFilter app_file user_filter in
    let* error_file :=
      RotatingFileHandler_new (pathlib.div log_dir "error.log") five_MiB 5 "utf-8" in
    let* error_file := Handler_setLevel error_file (PyInt ERROR) in
    let error_file := Handler_setFormatter error_file formatter in
    let error_file := Handler_addFilter error_file user_filter in
    Logger_addHandler root console_handler ;;
    Logger_addHandler root app_file ;;
    Logger_addHandler root error_file.

(** [name.replace("/", "_").replace("\\", "_").replace(".", "_")] *)
Definition safe_name_of (name : string) : string :=
  pystr.replace "." "_" (pystr.replace "\" "_" (pystr.replace "/" "_" name)).

(** [log_dir / f"{safe_name}.log"] *)
Definition module_log_path_of (log_dir : pathlib.Path) (name : string)
    : pathlib.Path :=
  pathlib.div log_dir (safe_name_of name +:+ ".log").

(** The test of the loop over [logger.handlers]:
    [isinstance(handler, RotatingFileHandler) and
     handler.baseFilename == str(module_log_path)]. *)
Definition targets (module_log_path : pathlib.Path) (handler : Handler) : bool :=
  match h_class handler with
  | RotatingFileHandler baseFilename _ _ _ =>
      bool_decide (baseFilename = pathlib.to_str module_log_path)
  | StreamHandler => false
  end.

(** [_ensure_module_handler(logger, name)] *)
Definition _ensure_module_handler (logger : LoggerRef) (name : string) : M unit :=
  let* log_dir := _get_log_dir in
  let* level := _get_log_level in
  let formatter := _get_formatter in
  let module_log_path := module_log_path_of log_dir name in
  let* handlers := Logger_handlers logger in
  if existsb (targets module_log_path) handlers then ret tt
  else
    let* module_file :=
      RotatingFileHandler_new module_log_path five_MiB 5 "utf-8" in
    let* module_file := Handler_setLevel module_file level in
    let module_file := Handler_setFormatter module_file formatter in
    let module_file := Handler_addFilter module_file UserContextFilter in
    Logger_addHandler logger module_file.

(** [get_logger(name)] *)
Definition get_logger (name : option string) : M LoggerRef :=
  let logger_name := pystr.or_default name "app" in
  let* logger := logging_getLogger (Some logger_name) in
  _ensure_module_handler logger logger_name ;;
  ret logger.

(** ** [logging]: delivery of a record *)

(** [Filterer.filter(record)] over the filters of a handler. *)
Definition Filter_filter (f : Filter) (record : LogRecord)
    : M (bool * LogRecord) :=
  match f with
  | UserContextFilter => UserContextFilter_filter record
  end.

Fixpoint Filterer_filter (fs : list Filter) (record : LogRecord)
    : M (bool * LogRecord) :=
  match fs with
  | [] => ret (true, record)
  | f :: fs' =>
      let* res := Filter_filter f record in
      if fst res then Filterer_filter fs' (snd res)
      else ret (false, snd res)
  end.

(** [hdlr.emit(record)]: the formatted line goes to the handler's stream;
    a formatting error is swallowed by [handleError].  Rotation of the
    file behind the stream is not part of the model. *)
Definition Handler_emit (h : Handler) (record : LogRecord) : M unit :=
  match Handler_format h record with
  | Some line =>
      modify (fun w => set_emitted (emitted w ++ [(stream_of h, line)]) w)
  | None => ret tt
  end.

(** [hdlr.handle(record)]; the record object is shared, so what the
    filters wrote on it is returned. *)
Definition Handler_handle (h : Handler) (record : LogRecord) : M LogRecord :=
  let* res := Filterer_filter (h_filters h) record in
  (if fst res then Handler_emit h (snd res) else ret tt) ;;
  ret (snd res).

(** The test of [callHandlers]: [record.levelno >= hdlr.level]. *)
Definition level_admits (h : Handler) (record : LogRecord) : bool :=
  h_level h <=? r_levelno record.

(** The loop of [callHandlers] over the handlers of one logger. *)
Fixpoint call_handlers (hs : list Handler) (record : LogRecord) : M LogRecord :=
  match hs with
  | [] => ret record
  | h :: hs' =>
      let* record :=
        (if level_admits h record then Handler_handle h record else ret record) in
      call_handlers hs' record
  end.

(** [logging.lastResort] *)
Definition lastResort : Handler := mkHandler StreamHandler WARNING None [].

(** [logging.getLogger().log(level, msg)], with the rendered creation time
    of the record as [now]: enabled when the level is above the manager's
    disable level (0) and not below the root logger's level; the record
    then goes to the handlers of the root logger, or to [lastResort] when
    it has none. *)
Definition root_log (now : string) (level : Z) (msg : string) : M unit :=
  let* w := get_world in
  let lg := root_logger w in
  if negb (0 >=? level) && (l_level lg <=? level) then
    let record := mkRecord "root" level msg now None in
    match l_handlers lg with
    | [] => (if level_admits lastResort record
             then Handler_handle lastResort record ;; ret tt
             else ret tt)
    | hs => call_handlers hs record ;; ret tt
    end
  else ret tt.

(** ** Vocabulary of the statements *)

(** The actor a read in world [w] gives. *)
Definition actor (w : World) : string :=
  default _current_user_default (ctx_current_user w).

(** The log directory and the level object that the environment of [w]
    designates, i.e. what [_get_log_dir] and [_get_log_level] return there. *)
Definition log_dir_of (w : World) : pathlib.Path :=
  pathlib.of_str (default "logs" (environ w !! "LOG_DIR")).

Definition log_level_of (w : World) : PyObj :=
  default (PyInt INFO)
    (getattr_upper (pystr.upper (default "INFO" (environ w !! "LOG_LEVEL")))).

(** The absolute name of a file of the log directory of [w]. *)
Definition log_file_of (w : World) (file : string) : string :=
  posixpath.abspath (cwd w) (pathlib.to_str (pathlib.div (log_dir_of w) file)).

(** A unit of work run under actor [x]: set, work, restore. *)
Definition scoped (x : option string) (body : M unit) : M unit :=
  let* tok := set_log_user x in
  body ;;
  reset_log_user tok.

(** Units of work nested in one another, outermost first. *)
Fixpoint nested (xs : list (option string)) : M unit :=
  match xs with
  | [] => ret tt
  | x :: xs' => scoped x (nested xs')
  end.

(** [record.user = u] on a record. *)
Definition with_user (u : string) (r : LogRecord) : LogRecord :=
  mkRecord (r_name r) (r_levelno r) (r_message r) (r_asctime r) (Some u).

(** The line the module's format string renders for a record stamped
    with actor [u]. *)
Definition line_of (r : LogRecord) (u : string) : string :=
  r_asctime r +:+ " " +:+ getLevelName (r_levelno r) +:+ " " +:+ r_name r
    +:+ " user=" +:+ u +:+ " " +:+ r_message r.

(** The character-wise effect of the three replacements. *)
Definition sanitize_char (c : ascii) : ascii :=
  if pystr.eqb_char c "/" || pystr.eqb_char c "\" || pystr.eqb_char c "."
  then "_"%char else c.

(** What [setup_logging] attaches in world [w] when the level read is the
    integer [level]. *)
Definition module_handler (file : string) (level : Z) : Handler :=
  mkHandler (RotatingFileHandler file five_MiB 5 "utf-8") level
            (Some _get_formatter) [UserContextFilter].

Definition console_sink (level : Z) : Handler :=
  mkHandler StreamHandler level (Some _get_formatter) [UserContextFilter].

Definition root_sinks (w : World) (level : Z) : list Handler :=
  [ console_sink level;
    module_handler (log_file_of w "app.log") level;
    module_handler (log_file_of w "error.log") ERROR ].

(** The five names of the configuration contract, and the other upper-case
    attributes of [logging] that [getattr] also finds. *)
Definition level_names : list string :=
  ["DEBUG"; "INFO"; "WARNING"; "ERROR"; "CRITICAL"].

Definition other_logging_names : list string :=
  ["WARN"; "FATAL"; "NOTSET"; "BASIC_FORMAT"; "_STYLES"].

(** What a unit of work may do to the context: it returns, it leaves the
    binding as it found it, and it leaves the tokens that existed before
    it alone. *)
Definition balanced_at (c : M unit) (w : World) : Prop :=
  exists w' (ts : list TokenObj),
    c w = Ret tt w'
    /\ ctx_current_user w' = ctx_current_user w
    /\ tokens w' = tokens w ++ ts.

(** The directory [_get_log_dir] makes in [w], and the world with it. *)
Definition log_dir_abs (w : World) : string :=
  posixpath.abspath (cwd w) (pathlib.to_str (log_dir_of w)).

Definition with_log_dir (w : World) : World :=
  set_fs_dirs ({[log_dir_abs w]} ∪ fs_dirs w) w.

(** The world after a first successful [setup_logging]. *)
Definition after_setup (w : World) (level : Z) : World :=
  let w1 := with_log_dir w in
  set_root_logger (mkLogger level (root_sinks w level))
    (set_fs_files ({[log_file_of w "error.log"]}
                     ∪ ({[log_file_of w "app.log"]} ∪ fs_files w)) w1).

(** The file of component [name] in world [w]. *)
Definition component_file (w : World) (name : string) : string :=
  log_file_of w (safe_name_of name +:+ ".log").

(** The world after [logger.addHandler(h)]. *)
Definition attach (l : LoggerRef) (h : Handler) (w : World) : World :=
  world_of (Logger_addHandler l h w).

(** What [logging.getLogger(name)] resolves a name to, and the world it
    leaves. *)
Definition resolve (name : string) : LoggerRef :=
  if negb (pystr.truthy name) || bool_decide (name = "root") then Root
  else Named name.

Definition registered (w : World) (name : string) : World :=
  world_of (logging_getLogger (Some name) w).

(** The record [logging.getLogger().log(level, msg)] makes. *)
Definition root_record (now : string) (level : Z) (msg : string) : LogRecord :=
  mkRecord "root" level msg now None.

Fixpoint has_char (c : ascii) (s : string) : bool :=
  match s with
  | EmptyString => false
  | String d s' => pystr.eqb_char d c || has_char c s'
  end.

(** *** Runs used as examples *)

(** Requests for the same component, one after the other, and the sink
    they are about in /srv/app with the default configuration. *)
Definition billing_calls (n : nat) : M unit :=
  repeat_M n (get_logger (Some "billing") ;; ret tt).

Definition billing_sink : Handler :=
  module_handler "/srv/app/logs/billing.log" INFO.

(** A run in which the configuration changes after root initialisation,
    and the world just before its call of [get_logger]. *)
Definition reconfigured : M LoggerRef :=
  setup_logging ;;
  os_environ_setitem "LOG_LEVEL" "DEBUG" ;;
  os_environ_setitem "LOG_DIR" "/tmp/other" ;;
  get_logger (Some "billing").

Definition before_get_logger : World :=
  world_of ((setup_logging ;;
             os_environ_setitem "LOG_LEVEL" "DEBUG" ;;
             os_environ_setitem "LOG_DIR" "/tmp/other")
              (fresh_world "/srv/app")).

(** A fresh world whose environment sets LOG_LEVEL. *)
Definition with_log_level (v : string) : World :=
  world_of (os_environ_setitem "LOG_LEVEL" v (fresh_world "/srv/app")).

(** A run in which the sinks exist before the actor is set. *)
Definition alice_after_setup : M unit :=
  setup_logging ;;
  (let* tok := set_log_user (Some "alice") in
   root_log "2026-01-01 12:00:00" WARNING "disk low" ;;
   reset_log_user tok) ;;
  root_log "2026-01-01 12:00:01" WARNING "disk ok".

(** *** Vocabulary of the further properties *)

Definition set_fs_denied (d : gset string) (w : World) : World :=
  mkWorld (environ w) (cwd w) d (fs_dirs w) (fs_files w)
    (ctx_current_user w) (tokens w) (root_logger w) (loggerDict w) (emitted w).

(** A fresh interpreter in /srv/app on a file system that refuses one
    path. *)
Definition refusing (path : string) : World :=
  set_fs_denied {[path]} (fresh_world "/srv/app").

(** A handler configured the way the module configures every handler it
    makes: the module's formatter and the one filter. *)
Definition module_sink (h : Handler) : Prop :=
  h_formatter h = Some _get_formatter /\ h_filters h = [UserContextFilter].

(** What the handlers [hs] are given for record [r] in world [w]: one line
    for every handler whose level admits the record, in the order of the
    handlers. *)
Definition delivered (hs : list Handler) (r : LogRecord) (w : World)
    : list (Stream * string) :=
  map (fun h => (stream_of h, line_of r (actor w)))
      (List.filter (fun h => level_admits h r) hs).


(** LOG_DIR absolute, the sink of "billing" attached, then LOG_LEVEL set to
    a value that is no level. *)
Definition sink_then_bad_level : World :=
  world_of ((os_environ_setitem "LOG_DIR" "/var/log/app" ;;
             get_logger (Some "billing") ;;
             os_environ_setitem "LOG_LEVEL" "BASIC_FORMAT")
              (fresh_world "/srv/app")).

(** None of the three characters that sanitisation replaces. *)
Definition clean_name (name : string) : bool :=
  negb (has_char "/" name) && negb (has_char "\" name)
  && negb (has_char "." name).

(** * Properties *)

(** ** Sanity checks of the library model *)

Example path_examples :
  pathlib.to_str (pathlib.div (pathlib.of_str "logs") "billing.log")
    = "logs/billing.log"
  /\ posixpath.abspath "/srv/app" "logs/billing.log"
    = "/srv/app/logs/billing.log"
  /\ pathlib.to_str (pathlib.of_str "") = "."
  /\ pathlib.to_str (pathlib.of_str "///a") = "/a"
  /\ pathlib.to_str (pathlib.of_str "a//b/./c") = "a/b/c"
  /\ posixpath.normpath "a/../b" = "b"
  /\ posixpath.normpath "//a/b" = "//a/b"
  /\ pystr.upper "warn_1x" = "WARN_1X".
Proof. repeat split; reflexivity. Qed.

(** ** The context variable *)

Section ActorContext.

Implicit Types (w : World) (x : option string).

Lemma ContextVar_get_eq w : ContextVar_get w = Ret (actor w) w.
Proof. reflexivity. Qed.

Lemma set_log_user_eq x w :
  set_log_user x w
  = Ret (length (tokens w))
        (set_ctx (Some (pystr.or_default x "-"))
                 (tokens w ++ [mkToken (ctx_current_user w) false]) w).
Proof. reflexivity. Qed.

Lemma scoped_balanced x (body : M unit) :
  (forall w, balanced_at body w) -> forall w, balanced_at (scoped x body) w.
Proof.
  intros Hbody w. unfold balanced_at, scoped, bind.
  rewrite set_log_user_eq.
  destruct (Hbody (set_ctx (Some (pystr.or_default x "-"))
              (tokens w ++ [mkToken (ctx_current_user w) false]) w))
    as (w1 & ts & Hrun & Hctx & Htok).
  rewrite Hrun. cbn in Htok.
  unfold reset_log_user, ContextVar_reset.
  assert (Hlook : tokens w1 !! length (tokens w)
                  = Some (mkToken (ctx_current_user w) false)).
  { rewrite Htok, <- app_assoc. apply list_lookup_middle. reflexivity. }
  rewrite Hlook. cbn.
  eexists _, ([mkToken (ctx_current_user w) true] ++ ts).
  split; [reflexivity |]. split; [reflexivity |]. cbn.
  rewrite Htok, <- app_assoc. cbn.
  replace (length (tokens w)) with (length (tokens w) + 0)%nat at 1 by lia.
  rewrite insert_app_r. reflexivity.
Qed.

Lemma nested_balanced xs w : balanced_at (nested xs) w.
Proof.
  revert w. induction xs as [| x xs IH]; intros w.
  - exists w, []. cbn. rewrite app_nil_r. auto.
  - cbn [nested]. apply scoped_balanced. exact IH.
Qed.

End ActorContext.

(** C3. Whatever the actor [v] current in a world and whatever the
    identifier [x]: [set_log_user x] returns a token that holds the binding
    current before the call, and after the work of the scope, itself made
    of properly nested scopes, [reset_log_user] on that token returns and
    a read gives [v] again; the binding itself is back, not only what a
    read shows. *)
Theorem reset_log_user_restores_prior_actor :
  forall (w : World) (x : option string) (inner : list (option string)),
    exists tok w1 w2 w3,
      set_log_user x w = Ret tok w1
      /\ tokens w1 !! tok = Some (mkToken (ctx_current_user w) false)
      /\ ContextVar_get w1 = Ret (pystr.or_default x "-") w1
      /\ nested inner w1 = Ret tt w2
      /\ ContextVar_get w2 = Ret (pystr.or_default x "-") w2
      /\ reset_log_user tok w2 = Ret tt w3
      /\ ctx_current_user w3 = ctx_current_user w
      /\ ContextVar_get w3 = Ret (actor w) w3.
Proof.
  intros w x inner.
  rewrite set_log_user_eq.
  set (w1 := set_ctx _ _ w).
  destruct (nested_balanced inner w1) as (w2 & ts & Hrun & Hctx & Htok).
  assert (Hlook : tokens w2 !! length (tokens w)
                  = Some (mkToken (ctx_current_user w) false)).
  { rewrite Htok. subst w1. cbn. rewrite <- app_assoc.
    apply list_lookup_middle. reflexivity. }
  exists (length (tokens w)), w1, w2.
  eexists. split; [reflexivity |].
  split. { subst w1. cbn. apply list_lookup_middle. reflexivity. }
  split; [reflexivity |].
  split; [exact Hrun |].
  split. { rewrite ContextVar_get_eq. unfold actor. rewrite Hctx. reflexivity. }
  unfold reset_log_user, ContextVar_reset. rewrite Hlook. cbn.
  split; [reflexivity |]. split; reflexivity.
Qed.

(** ** Reading the actor and rendering it *)

Lemma append_empty_r (s : string) : s +:+ "" = s.
Proof.
  induction s as [| c s IH]; [reflexivity |].
  change (String c (s +:+ "") = String c s). f_equal. exact IH.
Qed.

Lemma Formatter_format_line (r : LogRecord) (u : string) :
  r_user r = Some u ->
  Formatter_format _get_formatter r = Some (line_of r u).
Proof.
  destruct r as [n l m a u']. cbn. intros [= ->].
  unfold Formatter_format, line_of, record_dict.
  cbn [r_name r_levelno r_message r_asctime r_user].
  generalize (getLevelName l). intros lv.
  vm_compute. repeat f_equal. exact (append_empty_r m).
Qed.

Lemma UserContextFilter_filter_eq (r : LogRecord) (w : World) :
  UserContextFilter_filter r w = Ret (true, with_user (actor w) r) w.
Proof. reflexivity. Qed.

Lemma Handler_handle_module_sink (h : Handler) (r : LogRecord) (w : World) :
  h_formatter h = Some _get_formatter ->
  h_filters h = [UserContextFilter] ->
  Handler_handle h r w
  = Ret (with_user (actor w) r)
        (set_emitted (emitted w ++ [(stream_of h, line_of r (actor w))]) w).
Proof.
  intros Hf Hfl. unfold Handler_handle, bind. rewrite Hfl. cbn.
  unfold Handler_emit, Handler_format. rewrite Hf. cbn [default].
  rewrite (Formatter_format_line _ (actor w)) by reflexivity.
  reflexivity.
Qed.

(** ** Reading the configuration *)

Section Configuration.

Implicit Types (w : World).

Lemma get_log_level_eq w : _get_log_level w = Ret (log_level_of w) w.
Proof. reflexivity. Qed.

Lemma get_log_dir_eq w :
  _get_log_dir w
  = if bool_decide (log_dir_abs w ∈ fs_denied w)
    then Raise (OSError (log_dir_abs w)) w
    else Ret (log_dir_of w) (with_log_dir w).
Proof.
  unfold _get_log_dir, bind, os_getenv, Path_mkdir.
  fold (log_dir_of w). fold (log_dir_abs w).
  destruct (bool_decide (log_dir_abs w ∈ fs_denied w)); reflexivity.
Qed.

Lemma with_log_dir_idem w :
  log_dir_abs w ∈ fs_dirs w -> with_log_dir w = w.
Proof.
  intros Hin. unfold with_log_dir, set_fs_dirs. destruct w; cbn in *.
  f_equal. apply subseteq_union_1_L, singleton_subseteq_l. exact Hin.
Qed.

Lemma getattr_upper_None (name : string) :
  ~ In name (level_names ++ other_logging_names) ->
  getattr_upper name = None.
Proof.
  intros Hn. unfold getattr_upper.
  repeat (case_bool_decide as Heq;
          [ exfalso; apply Hn; rewrite Heq; cbn; tauto
          | clear Heq ]).
  reflexivity.
Qed.

End Configuration.

(** ** Root initialisation *)

Section RootRouter.

Implicit Types (w : World).

Lemma setup_logging_again w :
  l_handlers (root_logger w) <> [] ->
  setup_logging w
  = if bool_decide (log_dir_abs w ∈ fs_denied w)
    then Raise (OSError (log_dir_abs w)) w
    else Ret tt (with_log_dir w).
Proof.
  intros Hne. unfold setup_logging, bind at 1.
  rewrite get_log_dir_eq.
  case_bool_decide as Hd; [reflexivity |].
  unfold bind at 1. rewrite get_log_level_eq.
  unfold bind, logging_getLogger, Logger_handlers, logger_of.
  cbn [root_logger with_log_dir set_fs_dirs].
  rewrite bool_decide_eq_false_2 by exact Hne. reflexivity.
Qed.

Lemma setup_logging_on_bare_root w :
  l_handlers (root_logger w) = [] ->
  setup_logging w
  = if bool_decide (log_dir_abs w ∈ fs_denied w)
    then Raise (OSError (log_dir_abs w)) w
    else
      match checkLevel (log_level_of w) with
      | inl e => Raise e (with_log_dir w)
      | inr level =>
          let w1 := set_root_logger (mkLogger level []) (with_log_dir w) in
          if bool_decide (log_file_of w "app.log" ∈ fs_denied w)
          then Raise (OSError (log_file_of w "app.log")) w1
          else
            if bool_decide (log_file_of w "error.log" ∈ fs_denied w)
            then Raise (OSError (log_file_of w "error.log"))
                       (set_fs_files ({[log_file_of w "app.log"]} ∪ fs_files w) w1)
            else Ret tt (after_setup w level)
      end.
Proof.
  intros Hnil. unfold setup_logging, bind at 1.
  rewrite get_log_dir_eq.
  case_bool_decide as Hd; [reflexivity |].
  unfold bind at 1. rewrite get_log_level_eq.
  change (log_level_of (with_log_dir w)) with (log_level_of w).
  unfold bind, logging_getLogger, Logger_handlers, logger_of.
  cbn [root_logger with_log_dir set_fs_dirs]. rewrite Hnil. cbn [bool_decide].
  rewrite bool_decide_eq_true_2 by reflexivity. cbn [negb].
  unfold Logger_setLevel, Handler_setLevel, bind, lift_check.
  destruct (checkLevel (log_level_of w)) as [e | level] eqn:Hlv;
    [reflexivity |].
  cbn [raise ret bind update_logger StreamHandler_new h_class h_level
       h_formatter h_filters].
  unfold RotatingFileHandler_new at 1.
  cbn [cwd fs_denied set_root_logger with_log_dir set_fs_dirs root_logger].
  rewrite Hnil.
  fold (log_file_of w "app.log").
  case_bool_decide as Ha; [reflexivity |].
  unfold RotatingFileHandler_new at 1.
  cbn [cwd fs_denied fs_files set_fs_files set_root_logger with_log_dir
       set_fs_dirs].
  fold (log_file_of w "error.log").
  case_bool_decide as He; [reflexivity |].
  reflexivity.
Qed.

Lemma setup_logging_first w w' :
  l_handlers (root_logger w) = [] ->
  setup_logging w = Ret tt w' ->
  exists level,
    checkLevel (log_level_of w) = inr level /\ w' = after_setup w level.
Proof.
  intros Hnil. rewrite (setup_logging_on_bare_root w Hnil).
  repeat case_match; try discriminate.
  intros [= <-]. eauto.
Qed.

(** With an integer level, only the file system can make
    [setup_logging] raise. *)
Lemma setup_logging_raises_OSError w level e w' :
  checkLevel (log_level_of w) = inr level ->
  setup_logging w = Raise e w' ->
  exists path, e = OSError path.
Proof.
  intros Hlv.
  destruct (decide (l_handlers (root_logger w) = [])) as [Hnil | Hne].
  - rewrite (setup_logging_on_bare_root w Hnil), Hlv.
    repeat case_match; try discriminate; intros [= <- _]; eauto.
  - rewrite (setup_logging_again w Hne).
    case_match; try discriminate; intros [= <- _]; eauto.
Qed.

Lemma after_setup_fixpoint w level :
  log_dir_abs w ∉ fs_denied w ->
  setup_logging (after_setup w level) = Ret tt (after_setup w level).
Proof.
  intros Hd. rewrite setup_logging_again by discriminate.
  change (log_dir_abs (after_setup w level)) with (log_dir_abs w).
  change (fs_denied (after_setup w level)) with (fs_denied w).
  rewrite bool_decide_eq_false_2 by exact Hd.
  f_equal. apply with_log_dir_idem.
  change (log_dir_abs (after_setup w level)) with (log_dir_abs w).
  change (fs_dirs (after_setup w level)) with ({[log_dir_abs w]} ∪ fs_dirs w).
  apply elem_of_union_l, elem_of_singleton. reflexivity.
Qed.

Lemma setup_logging_returns_not_denied w :
  returns (setup_logging w) = true -> log_dir_abs w ∉ fs_denied w.
Proof.
  unfold setup_logging, bind at 1. rewrite get_log_dir_eq.
  case_bool_decide as Hd; [discriminate | auto].
Qed.

(** An [OSError] of [setup_logging] names a path that the file system
    refuses. *)
Lemma setup_logging_OSError_denied w path w' :
  setup_logging w = Raise (OSError path) w' -> path ∈ fs_denied w.
Proof.
  destruct (decide (l_handlers (root_logger w) = [])) as [Hnil | Hne].
  - rewrite (setup_logging_on_bare_root w Hnil).
    case_bool_decide as Hd; [intros [= <- _]; exact Hd |].
    destruct (checkLevel (log_level_of w)) as [e | level] eqn:Hck.
    { intros [= -> _]. unfold checkLevel in Hck.
      destruct (log_level_of w); try destruct (nameToLevel _); discriminate. }
    cbv zeta.
    case_bool_decide as Ha; [intros [= <- _]; exact Ha |].
    case_bool_decide as He; [intros [= <- _]; exact He | discriminate].
  - rewrite (setup_logging_again w Hne).
    case_bool_decide as Hd; [intros [= <- _]; exact Hd | discriminate].
Qed.

(** A world that a returning call leaves is one a further call returns
    unchanged. *)
Lemma setup_logging_stable w w' :
  setup_logging w = Ret tt w' -> setup_logging w' = Ret tt w'.
Proof.
  intros Hrun.
  assert (Hd : log_dir_abs w ∉ fs_denied w).
  { apply setup_logging_returns_not_denied. rewrite Hrun. reflexivity. }
  destruct (decide (l_handlers (root_logger w) = [])) as [Hnil | Hne].
  - destruct (setup_logging_first w w' Hnil Hrun) as (level & _ & ->).
    apply after_setup_fixpoint. exact Hd.
  - rewrite (setup_logging_again w Hne) in Hrun.
    rewrite bool_decide_eq_false_2 in Hrun by exact Hd.
    injection Hrun as <-.
    rewrite setup_logging_again by exact Hne.
    change (log_dir_abs (with_log_dir w)) with (log_dir_abs w).
    change (fs_denied (with_log_dir w)) with (fs_denied w).
    rewrite bool_decide_eq_false_2 by exact Hd.
    f_equal. apply with_log_dir_idem.
    change (log_dir_abs (with_log_dir w)) with (log_dir_abs w).
    apply elem_of_union_l, elem_of_singleton. reflexivity.
Qed.

Lemma repeat_setup_logging w n :
  repeat_M (S n) setup_logging w = setup_logging w.
Proof.
  revert w. induction n as [| n IH]; intros w.
  - cbn [repeat_M]. unfold bind, ret.
    destruct (setup_logging w) as [[] w' | e w']; reflexivity.
  - change (repeat_M (S (S n)) setup_logging w)
      with (bind setup_logging (fun _ => repeat_M (S n) setup_logging) w).
    unfold bind.
    destruct (setup_logging w) as [[] w' | e w'] eqn:Hrun; [| reflexivity].
    rewrite IH. apply setup_logging_stable with (w := w). exact Hrun.
Qed.

End RootRouter.

(** C2. One or more calls of [setup_logging] do what one call does: the
    result and the world are those of the first call.  From a root logger
    without handlers, when the call succeeds, they leave exactly three
    handlers on the root logger: the console sink and the rotating files
    app.log and error.log of the log directory.  On a root logger that has
    any handler, a call attaches nothing and opens no file: whether it
    returns or raises (the log directory is still made first), the root
    logger, the named loggers and the set of opened files are as
    before. *)
Theorem setup_logging_idempotent (w : World) (n : nat) :
  repeat_M (S n) setup_logging w = setup_logging w
  /\ (l_handlers (root_logger w) = [] ->
      returns (setup_logging w) = true ->
      exists level,
        checkLevel (log_level_of w) = inr level
        /\ l_handlers (root_logger (world_of (repeat_M (S n) setup_logging w)))
           = root_sinks w level
        /\ length (l_handlers
                     (root_logger (world_of (repeat_M (S n) setup_logging w))))
           = 3%nat)
  /\ (l_handlers (root_logger w) <> [] ->
      let w' := world_of (setup_logging w) in
      root_logger w' = root_logger w
      /\ loggerDict w' = loggerDict w
      /\ fs_files w' = fs_files w
      /\ ctx_current_user w' = ctx_current_user w
      /\ emitted w' = emitted w).
Proof.
  split; [apply repeat_setup_logging |]. split.
  - intros Hnil Hret. rewrite repeat_setup_logging.
    destruct (setup_logging w) as [[] w1 | e w1] eqn:Hrun; [| discriminate].
    destruct (setup_logging_first w w1 Hnil Hrun) as (level & Hlv & ->).
    exists level. split; [exact Hlv |]. split; reflexivity.
  - intros Hne. rewrite setup_logging_again by exact Hne.
    destruct (bool_decide (log_dir_abs w ∈ fs_denied w)); cbn; auto.
Qed.

(** Two calls in a fresh interpreter, and a call on the world they leave. *)
Lemma setup_logging_idempotent_witness :
  (l_handlers (root_logger (fresh_world "/srv/app")) = []
   /\ returns (setup_logging (fresh_world "/srv/app")) = true
   /\ exists level,
       checkLevel (log_level_of (fresh_world "/srv/app")) = inr level
       /\ l_handlers (root_logger
                        (world_of (repeat_M 2 setup_logging
                                     (fresh_world "/srv/app"))))
          = root_sinks (fresh_world "/srv/app") level
       /\ length (l_handlers
                    (root_logger
                       (world_of (repeat_M 2 setup_logging
                                    (fresh_world "/srv/app")))))
          = 3%nat)
  /\ (let w1 := after_setup (fresh_world "/srv/app") INFO in
      l_handlers (root_logger w1) <> []
      /\ root_logger (world_of (setup_logging w1)) = root_logger w1).
Proof.
  split.
  - split; [reflexivity |]. split; [reflexivity |].
    apply (proj1 (proj2 (setup_logging_idempotent (fresh_world "/srv/app") 1)));
      reflexivity.
  - cbv zeta. split; [discriminate |].
    apply (proj2 (proj2 (setup_logging_idempotent
                           (after_setup (fresh_world "/srv/app") INFO) 0))).
    discriminate.
Defined.

(** ** Component loggers *)

Section ComponentRouter.

Implicit Types (w : World) (l : LoggerRef).

Lemma attach_handlers l h w :
  l_handlers (logger_of (attach l h w) l) = l_handlers (logger_of w l) ++ [h].
Proof.
  destruct l as [| n]; cbn; [reflexivity |].
  rewrite lookup_insert_eq. reflexivity.
Qed.

Lemma ensure_module_handler_eq l name w :
  _ensure_module_handler l name w
  = if bool_decide (log_dir_abs w ∈ fs_denied w)
    then Raise (OSError (log_dir_abs w)) w
    else
      if existsb (targets (module_log_path_of (log_dir_of w) name))
                 (l_handlers (logger_of w l))
      then Ret tt (with_log_dir w)
      else
        if bool_decide (component_file w name ∈ fs_denied w)
        then Raise (OSError (component_file w name)) (with_log_dir w)
        else
          let w1 := set_fs_files ({[component_file w name]} ∪ fs_files w)
                                 (with_log_dir w) in
          match checkLevel (log_level_of w) with
          | inl e => Raise e w1
          | inr level =>
              Ret tt (attach l (module_handler (component_file w name) level) w1)
          end.
Proof.
  unfold _ensure_module_handler, bind at 1. rewrite get_log_dir_eq.
  case_bool_decide as Hd; [reflexivity |].
  unfold bind at 1. rewrite get_log_level_eq.
  change (log_level_of (with_log_dir w)) with (log_level_of w).
  unfold bind at 1. unfold Logger_handlers.
  replace (logger_of (with_log_dir w) l) with (logger_of w l)
    by (destruct l; reflexivity).
  destruct (existsb _ _); [reflexivity |].
  unfold bind at 1. unfold RotatingFileHandler_new.
  cbn [cwd fs_denied with_log_dir set_fs_dirs].
  change (posixpath.abspath (cwd w)
            (pathlib.to_str (module_log_path_of (log_dir_of w) name)))
    with (component_file w name).
  case_bool_decide as Hf; [reflexivity |].
  unfold bind, Handler_setLevel, lift_check, bind.
  destruct (checkLevel (log_level_of w)) as [e | level]; [reflexivity |].
  destruct l; reflexivity.
Qed.

Lemma logging_getLogger_eq w name :
  logging_getLogger (Some name) w = Ret (resolve name) (registered w name).
Proof.
  unfold registered, resolve, logging_getLogger.
  destruct (negb (pystr.truthy name) || bool_decide (name = "root"));
    [reflexivity |].
  destruct (loggerDict w !! name); reflexivity.
Qed.

Lemma registered_logger_of w name :
  logger_of (registered w name) (resolve name) = logger_of w (resolve name).
Proof.
  unfold registered, resolve, logging_getLogger.
  destruct (negb (pystr.truthy name) || bool_decide (name = "root"));
    [reflexivity |].
  destruct (loggerDict w !! name) as [lg |] eqn:Hl; cbn.
  - reflexivity.
  - rewrite lookup_insert_eq, Hl. reflexivity.
Qed.

Lemma registered_config w name :
  environ (registered w name) = environ w
  /\ cwd (registered w name) = cwd w
  /\ fs_denied (registered w name) = fs_denied w.
Proof.
  unfold registered, logging_getLogger.
  destruct (negb (pystr.truthy name) || bool_decide (name = "root"));
    [auto |].
  destruct (loggerDict w !! name); auto.
Qed.

Lemma registered_reads w name :
  log_dir_of (registered w name) = log_dir_of w
  /\ log_level_of (registered w name) = log_level_of w
  /\ log_dir_abs (registered w name) = log_dir_abs w
  /\ (forall n, component_file (registered w name) n = component_file w n).
Proof.
  destruct (registered_config w name) as (He & Hc & _).
  unfold component_file, log_file_of, log_dir_abs, log_dir_of, log_level_of.
  rewrite He, Hc. auto.
Qed.

Lemma get_logger_eq (name : option string) w :
  get_logger name w
  = let logger_name := pystr.or_default name "app" in
    match _ensure_module_handler (resolve logger_name) logger_name
            (registered w logger_name) with
    | Ret _ w' => Ret (resolve logger_name) w'
    | Raise e w' => Raise e w'
    end.
Proof.
  unfold get_logger, bind. cbn zeta. rewrite logging_getLogger_eq.
  destruct (_ensure_module_handler _ _ _); reflexivity.
Qed.

(** The run of [get_logger] on a world, case by case. *)
Lemma get_logger_run (name : option string) w :
  let n := pystr.or_default name "app" in
  let l := resolve n in
  let w0 := registered w n in
  get_logger name w
  = if bool_decide (log_dir_abs w ∈ fs_denied w)
    then Raise (OSError (log_dir_abs w)) w0
    else
      if existsb (targets (module_log_path_of (log_dir_of w) n))
                 (l_handlers (logger_of w l))
      then Ret l (with_log_dir w0)
      else
        if bool_decide (component_file w n ∈ fs_denied w)
        then Raise (OSError (component_file w n)) (with_log_dir w0)
        else
          let w1 := set_fs_files ({[component_file w n]} ∪ fs_files w0)
                                 (with_log_dir w0) in
          match checkLevel (log_level_of w) with
          | inl e => Raise e w1
          | inr level =>
              Ret l (attach l (module_handler (component_file w n) level) w1)
          end.
Proof.
  intros n l w0. rewrite get_logger_eq. cbv zeta. fold n. fold l. fold w0.
  rewrite ensure_module_handler_eq.
  destruct (registered_reads w n) as (Hdir & Hlv & Habs & Hfile).
  destruct (registered_config w n) as (_ & _ & Hden).
  fold w0 in Hdir, Hlv, Habs, Hfile, Hden.
  rewrite Hdir, Hlv, Habs, Hfile, Hden.
  replace (logger_of w0 l) with (logger_of w l)
    by (symmetry; apply registered_logger_of).
  repeat match goal with
         | |- context [if ?b then _ else _] => destruct b
         end; try reflexivity.
  cbv zeta. destruct (checkLevel (log_level_of w)); reflexivity.
Qed.

(** The handlers of the resolved logger in the worlds of [get_logger_run]. *)
Lemma logger_of_after_registering w (n : string) (fs : gset string) :
  logger_of (with_log_dir (registered w n)) (resolve n) = logger_of w (resolve n)
  /\ logger_of (set_fs_files fs (with_log_dir (registered w n))) (resolve n)
     = logger_of w (resolve n).
Proof.
  split.
  - change (logger_of (with_log_dir (registered w n)) (resolve n))
      with (logger_of (registered w n) (resolve n)).
    apply registered_logger_of.
  - change (logger_of (set_fs_files fs (with_log_dir (registered w n))) (resolve n))
      with (logger_of (registered w n) (resolve n)).
    apply registered_logger_of.
Qed.

Lemma get_logger_config w (name : option string) :
  let w' := world_of (get_logger name w) in
  environ w' = environ w /\ cwd w' = cwd w /\ fs_denied w' = fs_denied w.
Proof.
  cbv zeta. rewrite get_logger_run. cbv zeta.
  destruct (registered_config w (pystr.or_default name "app")) as (He & Hc & Hd).
  repeat match goal with
         | |- context [if ?b then _ else _] => destruct b
         end;
    try destruct (checkLevel _); cbn [world_of]; auto.
  unfold attach, Logger_addHandler, update_logger.
  destruct (resolve _); cbn [world_of]; auto.
Qed.

Lemma existsb_repeat_false {A} (f : A -> bool) (x : A) (k : nat) :
  f x = false -> existsb f (repeat x k) = false.
Proof.
  intros Hx. induction k as [| k IH]; [reflexivity |].
  cbn. rewrite Hx, IH. reflexivity.
Qed.

(** With the default log directory, a call of [get_logger("billing")] in
    /srv/app adds one more handler to the ones of earlier calls. *)
Lemma get_logger_billing_step w (k : nat) :
  environ w = ∅ -> cwd w = "/srv/app" -> fs_denied w = ∅ ->
  l_handlers (logger_of w (Named "billing")) = repeat billing_sink k ->
  exists w',
    get_logger (Some "billing") w = Ret (Named "billing") w'
    /\ environ w' = ∅ /\ cwd w' = "/srv/app" /\ fs_denied w' = ∅
    /\ l_handlers (logger_of w' (Named "billing")) = repeat billing_sink (S k).
Proof.
  intros Henv Hcwd Hden Hhs.
  pose proof (get_logger_config w (Some "billing")) as Hcfg. cbv zeta in Hcfg.
  pose proof (get_logger_run (Some "billing") w) as Hrun. cbv zeta in Hrun.
  change (pystr.or_default (Some "billing") "app") with "billing" in Hrun.
  change (resolve "billing") with (Named "billing") in Hrun.
  assert (Hdir : log_dir_of w = pathlib.of_str "logs").
  { unfold log_dir_of. rewrite Henv, lookup_empty. reflexivity. }
  assert (Hlevel : log_level_of w = PyInt INFO).
  { unfold log_level_of. rewrite Henv, lookup_empty. reflexivity. }
  assert (Hfile : component_file w "billing" = "/srv/app/logs/billing.log").
  { unfold component_file, log_file_of. rewrite Hdir, Hcwd. reflexivity. }
  rewrite Hdir, Hlevel, Hfile, Hden, Hhs in Hrun.
  rewrite !bool_decide_eq_false_2 in Hrun by apply not_elem_of_empty.
  rewrite existsb_repeat_false in Hrun by reflexivity.
  cbn [checkLevel] in Hrun.
  rewrite Hrun in Hcfg |- *. cbn [world_of] in Hcfg.
  destruct Hcfg as (He' & Hc' & Hd').
  eexists. split; [reflexivity |].
  rewrite He', Hc', Hd'. repeat split; try assumption.
  change (Named "billing") with (resolve "billing").
  rewrite attach_handlers.
  rewrite (proj2 (logger_of_after_registering w "billing" _)).
  change (resolve "billing") with (Named "billing").
  rewrite Hhs. symmetry. apply repeat_cons.
Qed.

Lemma billing_calls_S (n : nat) w w' :
  get_logger (Some "billing") w = Ret (Named "billing") w' ->
  billing_calls (S n) w = billing_calls n w'.
Proof.
  intros Hrun. unfold billing_calls. cbn [repeat_M]. unfold bind.
  rewrite Hrun. reflexivity.
Qed.

Lemma billing_calls_handlers (n : nat) w (k : nat) :
  environ w = ∅ -> cwd w = "/srv/app" -> fs_denied w = ∅ ->
  l_handlers (logger_of w (Named "billing")) = repeat billing_sink k ->
  returns (billing_calls n w) = true
  /\ l_handlers (logger_of (world_of (billing_calls n w)) (Named "billing"))
     = repeat billing_sink (n + k).
Proof.
  revert w k. induction n as [| n IH]; intros w k Henv Hcwd Hden Hhs.
  - split; [reflexivity | exact Hhs].
  - destruct (get_logger_billing_step w k Henv Hcwd Hden Hhs)
      as (w' & Hrun & Henv' & Hcwd' & Hden' & Hhs').
    destruct (IH w' (S k) Henv' Hcwd' Hden' Hhs') as [Hret Hall].
    rewrite (billing_calls_S n w w' Hrun).
    replace (S n + k)%nat with (n + S k)%nat by lia.
    split; assumption.
Qed.

End ComponentRouter.

(** C1. With the log directory left at its default, the relative path
    "logs", every call of [get_logger("billing")] returns and leaves one
    more rotating-file handler on the logger, all of them on
    /srv/app/logs/billing.log, so five calls leave five: a handler keeps
    the absolute path as its [baseFilename], the loop compares it with the
    relative "logs/billing.log", and so never finds the sink that is
    already there. *)
Theorem get_logger_relative_log_dir_duplicates_sink :
  let w0 := fresh_world "/srv/app" in
  (forall n : nat,
      returns (billing_calls n w0) = true
      /\ l_handlers (logger_of (world_of (billing_calls n w0)) (Named "billing"))
         = repeat billing_sink n)
  /\ length (l_handlers (logger_of (world_of (billing_calls 5 w0))
                                   (Named "billing"))) = 5%nat
  /\ stream_of billing_sink = File "/srv/app/logs/billing.log"
  /\ pathlib.to_str (module_log_path_of (log_dir_of w0) "billing")
     = "logs/billing.log"
  /\ targets (module_log_path_of (log_dir_of w0) "billing") billing_sink = false.
Proof.
  cbv zeta.
  assert (Hall : forall n : nat,
             returns (billing_calls n (fresh_world "/srv/app")) = true
             /\ l_handlers (logger_of (world_of (billing_calls n (fresh_world "/srv/app")))
                                      (Named "billing"))
                = repeat billing_sink n).
  { intros n.
    destruct (billing_calls_handlers n (fresh_world "/srv/app") 0) as [Hret Hhs];
      try reflexivity.
    rewrite Nat.add_0_r in Hhs. split; assumption. }
  split; [exact Hall |].
  split. { rewrite (proj2 (Hall 5%nat)). reflexivity. }
  repeat split; reflexivity.
Qed.

(** C9, as stated, fails: root initialisation reads level INFO and
    directory "logs"; after the environment is changed, [get_logger]
    attaches a sink at level DEBUG on /tmp/other/billing.log, not the sink
    at level INFO on /srv/app/logs/billing.log that the configuration of
    root initialisation gives. *)
Lemma component_sink_rereads_environment :
  let w0 := fresh_world "/srv/app" in
  let w := world_of (reconfigured w0) in
  returns (reconfigured w0) = true
  /\ log_level_of w0 = PyInt INFO
  /\ pathlib.to_str (log_dir_of w0) = "logs"
  /\ l_handlers (root_logger w) = root_sinks w0 INFO
  /\ l_handlers (logger_of w (Named "billing"))
     = [module_handler "/tmp/other/billing.log" DEBUG]
  /\ module_handler "/tmp/other/billing.log" DEBUG
     <> module_handler (component_file w0 "billing") INFO.
Proof. vm_compute. repeat split; try reflexivity. discriminate. Qed.

(** C9, amended. A call of [get_logger] that returns has read the
    configuration from the environment as it is at that call and leaves
    the environment as it is: if no rotating-file handler of the logger
    has the string of the module path as its [baseFilename], the logger
    gains one handler, on the file of the component in the log directory
    that the environment names now and at the level that the environment
    names now; otherwise its handlers are unchanged.  These are the
    directory and level of root initialisation when LOG_DIR, LOG_LEVEL and
    the working directory are what they were then. *)
Theorem get_logger_reads_environment_at_call (w : World) (name : option string) :
  returns (get_logger name w) = true ->
  let logger_name := pystr.or_default name "app" in
  let l := resolve logger_name in
  let w' := world_of (get_logger name w) in
  get_logger name w = Ret l w'
  /\ environ w' = environ w
  /\ (if existsb (targets (module_log_path_of (log_dir_of w) logger_name))
                 (l_handlers (logger_of w l))
      then l_handlers (logger_of w' l) = l_handlers (logger_of w l)
      else exists level,
          checkLevel (log_level_of w) = inr level
          /\ l_handlers (logger_of w' l)
             = l_handlers (logger_of w l)
               ++ [module_handler (component_file w logger_name) level])
  /\ (forall w_init : World,
         environ w_init !! "LOG_DIR" = environ w !! "LOG_DIR" ->
         environ w_init !! "LOG_LEVEL" = environ w !! "LOG_LEVEL" ->
         cwd w_init = cwd w ->
         component_file w logger_name = component_file w_init logger_name
         /\ log_level_of w = log_level_of w_init).
Proof.
  intros Hret logger_name l w'.
  destruct (get_logger_config w name) as (Henv & _ & _). fold w' in Henv.
  subst w'. rewrite get_logger_run in *. cbv zeta in *.
  fold logger_name in Hret, Henv |- *. fold l in Hret, Henv |- *.
  destruct (logger_of_after_registering w logger_name
              ({[component_file w logger_name]}
                 ∪ fs_files (registered w logger_name))) as [Hl1 Hl2].
  fold l in Hl1, Hl2.
  assert (Hinit : forall w_init : World,
             environ w_init !! "LOG_DIR" = environ w !! "LOG_DIR" ->
             environ w_init !! "LOG_LEVEL" = environ w !! "LOG_LEVEL" ->
             cwd w_init = cwd w ->
             component_file w logger_name = component_file w_init logger_name
             /\ log_level_of w = log_level_of w_init).
  { intros w_init Hd Hv Hc.
    unfold component_file, log_file_of, log_dir_of, log_level_of.
    rewrite Hd, Hv, Hc. split; reflexivity. }
  destruct (bool_decide (log_dir_abs w ∈ fs_denied w)); [discriminate |].
  destruct (existsb _ _).
  - cbn [world_of] in Henv |- *. rewrite Hl1.
    split; [reflexivity |]. split; [exact Henv |].
    split; [reflexivity | exact Hinit].
  - destruct (bool_decide (component_file w logger_name ∈ fs_denied w));
      [discriminate |].
    destruct (checkLevel (log_level_of w)) as [e | level]; [discriminate |].
    cbn [world_of] in Henv |- *. rewrite attach_handlers, Hl2.
    split; [reflexivity |]. split; [exact Henv |].
    split; [| exact Hinit].
    exists level. split; reflexivity.
Qed.

(** The same calls with LOG_DIR set to an absolute, normalised directory:
    there the string of the module path is the absolute path, the loop
    finds the sink, and one handler stays. *)
Example get_logger_absolute_log_dir_single_sink :
  let w0 := world_of (os_environ_setitem "LOG_DIR" "/var/log/app"
                        (fresh_world "/srv/app")) in
  let w := world_of (billing_calls 5 w0) in
  returns (billing_calls 5 w0) = true
  /\ l_handlers (logger_of w (Named "billing"))
     = [module_handler "/var/log/app/billing.log" INFO].
Proof. vm_compute. split; reflexivity. Qed.

(** When the string of the module path is already the absolute path of the
    file, a second call of [get_logger] finds the sink of the first and
    attaches nothing. *)
Lemma get_logger_idempotent_on_resolved_path (w : World) (name : option string) :
  let logger_name := pystr.or_default name "app" in
  let l := resolve logger_name in
  component_file w logger_name
  = pathlib.to_str (module_log_path_of (log_dir_of w) logger_name) ->
  returns (get_logger name w) = true ->
  let w1 := world_of (get_logger name w) in
  returns (get_logger name w1) = true
  /\ l_handlers (logger_of (world_of (get_logger name w1)) l)
     = l_handlers (logger_of w1 l).
Proof.
  intros logger_name l Hres Hret w1.
  destruct (get_logger_config w name) as (He & Hc & Hden).
  fold w1 in He, Hc, Hden.
  assert (Hdir : log_dir_of w1 = log_dir_of w)
    by (unfold log_dir_of; rewrite He; reflexivity).
  assert (Habs : log_dir_abs w1 = log_dir_abs w)
    by (unfold log_dir_abs; rewrite Hdir, Hc; reflexivity).
  assert (Hfirst : (log_dir_abs w ∉ fs_denied w)
                   /\ existsb (targets (module_log_path_of (log_dir_of w) logger_name))
                         (l_handlers (logger_of w1 l)) = true).
  { subst w1. revert Hret. rewrite get_logger_run. cbv zeta.
    fold logger_name. fold l.
    destruct (logger_of_after_registering w logger_name
                ({[component_file w logger_name]}
                   ∪ fs_files (registered w logger_name))) as [Hl1 Hl2].
    fold l in Hl1, Hl2.
    case_bool_decide as Hd; [discriminate |].
    destruct (existsb _ (l_handlers (logger_of w l))) eqn:Hex.
    - intros _. cbn [world_of]. rewrite Hl1. auto.
    - destruct (bool_decide (component_file w logger_name ∈ fs_denied w));
        [discriminate |].
      destruct (checkLevel (log_level_of w)) as [e | level]; [discriminate |].
      intros _. cbn [world_of]. rewrite attach_handlers, Hl2.
      split; [exact Hd |].
      rewrite existsb_app. apply orb_true_iff. right. cbn.
      rewrite Hres, bool_decide_eq_true_2 by reflexivity. reflexivity. }
  destruct Hfirst as [Hok Hfound].
  rewrite (get_logger_run name w1). cbv zeta. fold logger_name. fold l.
  rewrite Habs, Hden, Hdir, Hfound.
  rewrite bool_decide_eq_false_2 by exact Hok.
  cbn [returns world_of]. split; [reflexivity |].
  unfold l.
  rewrite (proj1 (logger_of_after_registering w1 logger_name ∅)).
  reflexivity.
Qed.

(** The call of [get_logger] in the run [reconfigured]. *)
Lemma get_logger_reads_environment_at_call_witness :
  returns (get_logger (Some "billing") before_get_logger) = true
  /\ environ (world_of (get_logger (Some "billing") before_get_logger))
     = environ before_get_logger
  /\ l_handlers (logger_of (world_of (get_logger (Some "billing") before_get_logger))
                           (Named "billing"))
     = [module_handler "/tmp/other/billing.log" DEBUG].
Proof.
  assert (Hret : returns (get_logger (Some "billing") before_get_logger) = true)
    by (vm_compute; reflexivity).
  split; [exact Hret |].
  destruct (get_logger_reads_environment_at_call before_get_logger
              (Some "billing") Hret) as (_ & Henv & Hhs & _).
  split; [exact Henv |].
  lazymatch type of Hhs with
  | if ?c then _ else _ =>
      replace c with false in Hhs by (vm_compute; reflexivity)
  end.
  destruct Hhs as (level & Hlv & Hhs).
  change (resolve (pystr.or_default (Some "billing") "app"))
    with (Named "billing") in Hhs.
  rewrite Hhs. injection Hlv as <-. reflexivity.
Defined.

(** ** Name sanitisation *)

Section Sanitisation.

Lemma replace3_char (c : ascii) :
  (if pystr.eqb_char
        (if pystr.eqb_char (if pystr.eqb_char c "/" then "_" else c) "\"
         then "_" else (if pystr.eqb_char c "/" then "_" else c)) "."
   then "_" else
     (if pystr.eqb_char (if pystr.eqb_char c "/" then "_" else c) "\"
      then "_" else (if pystr.eqb_char c "/" then "_" else c)))%char
  = sanitize_char c.
Proof. destruct c as [[] [] [] [] [] [] [] []]; reflexivity. Qed.

Lemma sanitize_char_not_sep (c : ascii) :
  pystr.eqb_char (sanitize_char c) "/" = false
  /\ pystr.eqb_char (sanitize_char c) "\" = false
  /\ pystr.eqb_char (sanitize_char c) "." = false.
Proof. destruct c as [[] [] [] [] [] [] [] []]; repeat split; reflexivity. Qed.

Lemma safe_name_of_cons (c : ascii) (s : string) :
  safe_name_of (String c s) = String (sanitize_char c) (safe_name_of s).
Proof.
  unfold safe_name_of. cbn [pystr.replace]. rewrite replace3_char.
  reflexivity.
Qed.

Lemma safe_name_of_get (name : string) (i : nat) :
  String.get i (safe_name_of name) = sanitize_char <$> String.get i name.
Proof.
  revert i. induction name as [| c s IH]; intros i.
  - destruct i; reflexivity.
  - rewrite safe_name_of_cons. destruct i as [| i]; cbn; [reflexivity |].
    apply IH.
Qed.

Lemma safe_name_of_length (name : string) :
  String.length (safe_name_of name) = String.length name.
Proof.
  induction name as [| c s IH]; [reflexivity |].
  rewrite safe_name_of_cons. cbn. f_equal. exact IH.
Qed.

Lemma safe_name_of_no_sep (name : string) :
  has_char "/" (safe_name_of name) = false.
Proof.
  induction name as [| c s IH]; [reflexivity |].
  rewrite safe_name_of_cons. cbn [has_char].
  rewrite (proj1 (sanitize_char_not_sep c)), IH. reflexivity.
Qed.

Lemma has_char_append (c : ascii) (s t : string) :
  has_char c (s +:+ t) = has_char c s || has_char c t.
Proof.
  induction s as [| d s IH]; [reflexivity |].
  change (String d s +:+ t) with (String d (s +:+ t)). cbn [has_char].
  rewrite IH, orb_assoc. reflexivity.
Qed.

Lemma split_no_sep (s : string) :
  has_char posixpath.sep s = false -> pystr.split posixpath.sep s = [s].
Proof.
  induction s as [| c s IH]; [reflexivity |].
  cbn [has_char pystr.split]. intros [Hc Hs]%orb_false_elim.
  rewrite Hc, (IH Hs). reflexivity.
Qed.

Lemma splitroot_relative (p : string) :
  pystr.startswith "/" p = false -> pathlib.splitroot p = ("", p).
Proof.
  destruct p as [| c p]; [reflexivity |].
  destruct c as [[] [] [] [] [] [] [] []]; try reflexivity.
  destruct p; discriminate.
Qed.

(** A file name made of a sanitised name and ".log" is one path part. *)
Lemma of_str_log_file (name : string) :
  pathlib.of_str (safe_name_of name +:+ ".log")
  = pathlib.mkPath "" [safe_name_of name +:+ ".log"].
Proof.
  set (s := safe_name_of name).
  assert (Hs : has_char "/" (s +:+ ".log") = false).
  { rewrite has_char_append. unfold s. rewrite safe_name_of_no_sep.
    reflexivity. }
  unfold pathlib.of_str.
  rewrite splitroot_relative.
  - rewrite (split_no_sep _ Hs). cbn [List.filter].
    assert (Hk : pathlib.keep_part (s +:+ ".log") = true).
    { destruct s as [| c s']; [reflexivity |].
      change (String c s' +:+ ".log") with (String c (s' +:+ ".log")).
      unfold pathlib.keep_part.
      rewrite !bool_decide_eq_false_2; [reflexivity | | discriminate].
      intros [= _ Hnil]. destruct s'; discriminate. }
    rewrite Hk. reflexivity.
  - destruct s as [| c s']; [reflexivity |].
    change (String c s' +:+ ".log") with (String c (s' +:+ ".log")) in *.
    cbn [has_char] in Hs. apply orb_false_elim in Hs as [Hc _].
    destruct c as [[] [] [] [] [] [] [] []]; try reflexivity.
    discriminate Hc.
Qed.

Lemma module_log_path_of_parts (log_dir : pathlib.Path) (name : string) :
  module_log_path_of log_dir name
  = pathlib.mkPath (pathlib.root log_dir)
      (pathlib.parts log_dir ++ [safe_name_of name +:+ ".log"]).
Proof.
  unfold module_log_path_of, pathlib.div. rewrite of_str_log_file.
  reflexivity.
Qed.

End Sanitisation.

(** C5. The file of a component is the log directory followed by one more
    path part, the sanitised name with ".log"; the sanitised name is the
    name with every "/", "\" and "." turned into "_" and every other
    character kept, so it has none of the three; "a/b.c" gives the file
    a_b_c.log of the log directory; and the names "a/b" and "a.b", which
    differ, give the same file. *)
Theorem component_file_name_is_sanitized :
  (forall (log_dir : pathlib.Path) (name : string),
      module_log_path_of log_dir name
      = pathlib.mkPath (pathlib.root log_dir)
          (pathlib.parts log_dir ++ [safe_name_of name +:+ ".log"]))
  /\ (forall (name : string) (i : nat),
         String.get i (safe_name_of name) = sanitize_char <$> String.get i name)
  /\ (forall (name : string) (i : nat) (c : ascii),
         String.get i (safe_name_of name) = Some c ->
         c <> "/"%char /\ c <> "\"%char /\ c <> "."%char)
  /\ (let w0 := fresh_world "/srv/app" in
      let w := world_of (get_logger (Some "a/b.c") w0) in
      returns (get_logger (Some "a/b.c") w0) = true
      /\ pathlib.to_str (module_log_path_of (log_dir_of w0) "a/b.c")
         = "logs/a_b_c.log"
      /\ l_handlers (logger_of w (Named "a/b.c"))
         = [module_handler "/srv/app/logs/a_b_c.log" INFO])
  /\ ("a/b" <> "a.b"
      /\ forall log_dir : pathlib.Path,
          module_log_path_of log_dir "a/b" = module_log_path_of log_dir "a.b").
Proof.
  split; [exact module_log_path_of_parts |].
  split; [exact safe_name_of_get |].
  split.
  { intros name i c. rewrite safe_name_of_get.
    destruct (String.get i name) as [d |]; [| discriminate].
    cbn. intros [= <-].
    destruct (sanitize_char_not_sep d) as (H1 & H2 & H3).
    repeat split; intros Heq; rewrite Heq in *; discriminate. }
  split; [vm_compute; repeat split; reflexivity |].
  split; [discriminate |].
  intros log_dir. rewrite !module_log_path_of_parts. reflexivity.
Qed.

(** ** Delivery to the root sinks *)

Section Delivery.

Implicit Types (w : World) (r : LogRecord).

Lemma sink_has_module_format (h : Handler) :
  (exists level, h = console_sink level)
  \/ (exists file level, h = module_handler file level) ->
  h_formatter h = Some _get_formatter /\ h_filters h = [UserContextFilter].
Proof. intros [[lv ->] | (f & lv & ->)]; split; reflexivity. Qed.

Lemma line_of_with_user r u v : line_of (with_user v r) u = line_of r u.
Proof. reflexivity. Qed.

Lemma with_user_twice r u v : with_user u (with_user v r) = with_user u r.
Proof. reflexivity. Qed.

(** A record at or above [level] and below ERROR reaches the console and
    app.log; at or above ERROR it reaches all three sinks. *)
Lemma root_log_after_setup w level now lv msg :
  0 < lv -> level <= lv ->
  let w' := after_setup w level in
  let line := line_of (root_record now lv msg) (actor w) in
  root_log now lv msg w'
  = Ret tt (set_emitted
              (emitted w
               ++ (if ERROR <=? lv
                   then [(Stderr, line);
                         (File (log_file_of w "app.log"), line);
                         (File (log_file_of w "error.log"), line)]
                   else [(Stderr, line);
                         (File (log_file_of w "app.log"), line)]))
              w').
Proof.
  intros Hpos Hle w' line.
  unfold root_log, bind at 1. unfold get_world.
  change (root_logger w') with (mkLogger level (root_sinks w level)).
  cbn [l_level l_handlers].
  replace (0 >=? lv) with false by (symmetry; rewrite Z.geb_leb; apply Z.leb_gt; lia).
  replace (level <=? lv) with true by (symmetry; apply Z.leb_le; lia).
  cbn [negb andb root_sinks call_handlers].
  unfold bind at 1. unfold bind at 1.
  unfold level_admits at 1. cbn [h_level console_sink r_levelno].
  replace (level <=? lv) with true by (symmetry; apply Z.leb_le; lia).
  rewrite Handler_handle_module_sink by reflexivity.
  unfold bind at 1. unfold level_admits at 1.
  cbn [h_level module_handler r_levelno with_user].
  replace (level <=? lv) with true by (symmetry; apply Z.leb_le; lia).
  rewrite Handler_handle_module_sink by reflexivity.
  unfold bind at 1. unfold level_admits at 1.
  cbn [h_level module_handler r_levelno with_user].
  destruct (ERROR <=? lv).
  - rewrite Handler_handle_module_sink by reflexivity.
    cbn. rewrite <- !app_assoc. reflexivity.
  - cbn. rewrite <- !app_assoc. reflexivity.
Qed.

End Delivery.

(** C6. After a successful [setup_logging] on a root logger without
    handlers, the root logger has the console sink, app.log and error.log
    in this order; error.log admits a record exactly when its level is
    ERROR or above, whatever level the configuration gave the other two.
    With LOG_LEVEL unset the level is INFO; and at INFO a WARNING record
    is admitted by app.log and not by error.log, an ERROR record by both,
    and logging them on the root logger gives the WARNING line to the
    console and app.log only and the ERROR line to all three. *)
Theorem root_sinks_filter_by_severity (w : World) :
  l_handlers (root_logger w) = [] ->
  returns (setup_logging w) = true ->
  let w' := world_of (setup_logging w) in
  exists level,
    checkLevel (log_level_of w) = inr level
    /\ let app := module_handler (log_file_of w "app.log") level in
       let err := module_handler (log_file_of w "error.log") ERROR in
       l_handlers (root_logger w') = [console_sink level; app; err]
       /\ (forall r, level_admits err r = true <-> ERROR <= r_levelno r)
       /\ (environ w !! "LOG_LEVEL" = None -> level = INFO)
       /\ (level = INFO ->
           (forall r, r_levelno r = WARNING ->
                      level_admits app r = true /\ level_admits err r = false)
           /\ (forall r, r_levelno r = ERROR ->
                         level_admits app r = true /\ level_admits err r = true)
           /\ forall now msg,
               emitted (world_of (root_log now WARNING msg w'))
               = emitted w'
                 ++ [(Stderr, line_of (root_record now WARNING msg) (actor w));
                     (File (log_file_of w "app.log"),
                      line_of (root_record now WARNING msg) (actor w))]
               /\ emitted (world_of (root_log now ERROR msg w'))
                  = emitted w'
                    ++ [(Stderr, line_of (root_record now ERROR msg) (actor w));
                        (File (log_file_of w "app.log"),
                         line_of (root_record now ERROR msg) (actor w));
                        (File (log_file_of w "error.log"),
                         line_of (root_record now ERROR msg) (actor w))]).
Proof.
  intros Hnil Hret w'. subst w'.
  destruct (setup_logging w) as [[] w1 | e w1] eqn:Hrun; [| discriminate].
  destruct (setup_logging_first w w1 Hnil Hrun) as (level & Hlv & ->).
  exists level. split; [exact Hlv |]. cbn zeta. cbn [world_of].
  split; [reflexivity |].
  split.
  { intros r. unfold level_admits. cbn [h_level module_handler].
    apply Z.leb_le. }
  split.
  { intros Henv. unfold log_level_of in Hlv. rewrite Henv in Hlv. cbn in Hlv.
    injection Hlv as <-. reflexivity. }
  intros ->.
  split. { intros r Hr. unfold level_admits. cbn. rewrite Hr. split; reflexivity. }
  split. { intros r Hr. unfold level_admits. cbn. rewrite Hr. split; reflexivity. }
  intros now msg. split.
  - rewrite root_log_after_setup by (unfold WARNING, INFO; lia). reflexivity.
  - rewrite root_log_after_setup by (unfold ERROR, INFO; lia). reflexivity.
Qed.

(** Root initialisation in a fresh interpreter. *)
Lemma root_sinks_filter_by_severity_witness :
  let w := fresh_world "/srv/app" in
  l_handlers (root_logger w) = []
  /\ returns (setup_logging w) = true
  /\ exists level,
      checkLevel (log_level_of w) = inr level
      /\ l_handlers (root_logger (world_of (setup_logging w)))
         = [console_sink level;
            module_handler (log_file_of w "app.log") level;
            module_handler (log_file_of w "error.log") ERROR].
Proof.
  split; [reflexivity |]. split; [reflexivity |].
  destruct (root_sinks_filter_by_severity (fresh_world "/srv/app")
              eq_refl eq_refl) as (level & Hlv & Hsinks & _).
  exists level. split; [exact Hlv | exact Hsinks].
Defined.

(** ** The configured level *)

(** C7, as stated, fails.  "WARN" is none of the five names, and the level
    read is WARNING, not INFO: root initialisation sets the root logger to
    WARNING.  "BASIC_FORMAT" is none of the five names either, the
    attribute found for it is a string, and root initialisation raises
    [ValueError]. *)
Lemma log_level_outside_five_names_not_info :
  (~ In (pystr.upper "WARN") level_names
   /\ _get_log_level (with_log_level "WARN")
      = Ret (PyInt WARNING) (with_log_level "WARN")
   /\ WARNING <> INFO
   /\ returns (setup_logging (with_log_level "WARN")) = true
   /\ l_level (root_logger (world_of (setup_logging (with_log_level "WARN"))))
      = WARNING)
  /\ (~ In (pystr.upper "BASIC_FORMAT") level_names
      /\ _get_log_level (with_log_level "BASIC_FORMAT")
         = Ret (PyStr BASIC_FORMAT) (with_log_level "BASIC_FORMAT")
      /\ exists w',
          setup_logging (with_log_level "BASIC_FORMAT")
          = Raise (ValueError ("Unknown level: " +:+ BASIC_FORMAT)) w').
Proof.
  split.
  - split. { cbn. intuition discriminate. }
    split; [reflexivity |]. split; [discriminate |].
    split; reflexivity.
  - split. { cbn. intuition discriminate. }
    split; [reflexivity |]. eexists. vm_compute. reflexivity.
Qed.

(** C7, amended.  For an ASCII value of LOG_LEVEL whose upper-case form is
    none of DEBUG, INFO, WARNING, ERROR, CRITICAL and none of the other
    upper-case attribute names of [logging] (WARN, FATAL, NOTSET,
    BASIC_FORMAT, _STYLES), the level read is INFO; [setup_logging] can
    then raise only for the file system, and when it returns on a root
    logger without handlers the root logger is at INFO.  The values whose
    upper-case form is WARN, FATAL or NOTSET are read as WARNING, CRITICAL
    and NOTSET. *)
Theorem log_level_falls_back_to_info :
  (forall (w : World) (v : string),
      environ w !! "LOG_LEVEL" = Some v ->
      pystr.is_ascii v = true ->
      ~ In (pystr.upper v) (level_names ++ other_logging_names) ->
      _get_log_level w = Ret (PyInt INFO) w
      /\ (forall e w', setup_logging w = Raise e w' -> exists path, e = OSError path)
      /\ (fs_denied w = ∅ -> returns (setup_logging w) = true)
      /\ (l_handlers (root_logger w) = [] ->
          returns (setup_logging w) = true ->
          root_logger (world_of (setup_logging w))
          = mkLogger INFO (root_sinks w INFO)))
  /\ (forall (w : World) (v : string),
         environ w !! "LOG_LEVEL" = Some v ->
         pystr.is_ascii v = true ->
         (pystr.upper v = "WARN" -> _get_log_level w = Ret (PyInt WARNING) w)
         /\ (pystr.upper v = "FATAL" -> _get_log_level w = Ret (PyInt CRITICAL) w)
         /\ (pystr.upper v = "NOTSET" -> _get_log_level w = Ret (PyInt NOTSET) w)).
Proof.
  split.
  - intros w v Henv _ Hout.
    assert (Hlv : log_level_of w = PyInt INFO).
    { unfold log_level_of. rewrite Henv. cbn [from_option id].
      rewrite (getattr_upper_None _ Hout). reflexivity. }
    split. { rewrite get_log_level_eq, Hlv. reflexivity. }
    split.
    { intros e w'. apply (setup_logging_raises_OSError w INFO).
      rewrite Hlv. reflexivity. }
    split.
    { intros Hfs.
      destruct (setup_logging w) as [[] w1 | e w1] eqn:Hrun; [reflexivity |].
      destruct (setup_logging_raises_OSError w INFO e w1) as [path ->];
        [rewrite Hlv; reflexivity | exact Hrun |].
      apply setup_logging_OSError_denied in Hrun.
      rewrite Hfs in Hrun. exfalso. exact (not_elem_of_empty _ Hrun). }
    intros Hnil Hret.
    destruct (setup_logging w) as [[] w1 | e w1] eqn:Hrun; [| discriminate].
    destruct (setup_logging_first w w1 Hnil Hrun) as (level & Hck & ->).
    rewrite Hlv in Hck. injection Hck as <-. reflexivity.
  - intros w v Henv _.
    repeat split; intros Hup; rewrite get_log_level_eq; unfold log_level_of;
      rewrite Henv; cbn [from_option id]; rewrite Hup; reflexivity.
Qed.

(** LOG_LEVEL set to "verbose", and to "fatal". *)
Lemma log_level_falls_back_to_info_witness :
  environ (with_log_level "verbose") !! "LOG_LEVEL" = Some "verbose"
  /\ pystr.is_ascii "verbose" = true
  /\ ~ In (pystr.upper "verbose") (level_names ++ other_logging_names)
  /\ _get_log_level (with_log_level "verbose")
     = Ret (PyInt INFO) (with_log_level "verbose")
  /\ root_logger (world_of (setup_logging (with_log_level "verbose")))
     = mkLogger INFO (root_sinks (with_log_level "verbose") INFO)
  /\ _get_log_level (with_log_level "fatal")
     = Ret (PyInt CRITICAL) (with_log_level "fatal").
Proof.
  assert (Hout : ~ In (pystr.upper "verbose") (level_names ++ other_logging_names)).
  { cbn. intuition discriminate. }
  split; [reflexivity |]. split; [reflexivity |]. split; [exact Hout |].
  destruct (proj1 log_level_falls_back_to_info (with_log_level "verbose")
              "verbose" eq_refl eq_refl Hout) as (Hlv & _ & _ & Hroot).
  split; [exact Hlv |]. split; [apply Hroot; reflexivity |].
  apply (proj2 log_level_falls_back_to_info (with_log_level "fatal") "fatal"
           eq_refl eq_refl).
  reflexivity.
Defined.

(** ** Reading and stamping the actor *)

(** C4. A read of the actor returns, changes nothing, and gives the bound
    value or "-" when there is none; with the variable never set it gives
    "-"; [set_log_user(None)] binds "-"; and a sink of the module, handed a
    record while the variable is unset, writes the line with the actor
    field " user=- ". *)
Theorem current_actor_defaults_to_sentinel :
  (forall w : World, ContextVar_get w = Ret (actor w) w)
  /\ (forall w : World, ctx_current_user w = None -> ContextVar_get w = Ret "-" w)
  /\ (forall w : World,
         exists tok w',
           set_log_user None w = Ret tok w'
           /\ ctx_current_user w' = Some "-"
           /\ ContextVar_get w' = Ret "-" w')
  /\ (forall (w : World) (h : Handler) (r : LogRecord),
         ctx_current_user w = None ->
         h_formatter h = Some _get_formatter ->
         h_filters h = [UserContextFilter] ->
         exists r' w',
           Handler_handle h r w = Ret r' w'
           /\ emitted w'
              = emitted w
                ++ [(stream_of h,
                     r_asctime r +:+ " " +:+ getLevelName (r_levelno r) +:+ " "
                       +:+ r_name r +:+ " user=- " +:+ r_message r)]).
Proof.
  split; [reflexivity |].
  split. { intros w Hnone. rewrite ContextVar_get_eq. unfold actor.
           rewrite Hnone. reflexivity. }
  split. { intros w. eexists _, _. rewrite set_log_user_eq.
           split; [reflexivity |]. split; reflexivity. }
  intros w h r Hnone Hf Hfl.
  rewrite (Handler_handle_module_sink h r w Hf Hfl).
  eexists _, _. split; [reflexivity |].
  unfold actor. rewrite Hnone. reflexivity.
Qed.

(** A record handled by the console sink with the actor never set. *)
Lemma current_actor_defaults_to_sentinel_witness :
  let w := world_of (setup_logging (fresh_world "/srv/app")) in
  ctx_current_user w = None
  /\ ContextVar_get w = Ret "-" w
  /\ emitted (world_of (Handler_handle (console_sink INFO)
                          (root_record "2026-01-01 12:00:00" INFO "started") w))
     = [(Stderr, "2026-01-01 12:00:00 INFO root user=- started")].
Proof.
  split; [reflexivity |].
  split.
  { apply (proj1 (proj2 current_actor_defaults_to_sentinel)). reflexivity. }
  destruct (proj2 (proj2 (proj2 current_actor_defaults_to_sentinel))
              (world_of (setup_logging (fresh_world "/srv/app")))
              (console_sink INFO)
              (root_record "2026-01-01 12:00:00" INFO "started")
              eq_refl eq_refl eq_refl) as (r' & w' & Hrun & Hem).
  rewrite Hrun. cbn [world_of]. rewrite Hem. reflexivity.
Defined.

(** C8. The filter sets [record.user] to the actor read in the world in
    which it runs and returns true, for every record.  A sink of the
    module therefore stamps and writes the actor current when the record
    is handled, in whatever world the sink was constructed: with the sinks
    set up before any actor is set, a record logged inside the scope of
    "alice" carries "alice" and one logged after the scope carries "-". *)
Theorem filter_stamps_actor_at_emission :
  (forall (r : LogRecord) (w : World),
      UserContextFilter_filter r w = Ret (true, with_user (actor w) r) w)
  /\ (forall (h : Handler) (r : LogRecord) (w : World),
         (exists level, h = console_sink level)
         \/ (exists file level, h = module_handler file level) ->
         Handler_handle h r w
         = Ret (with_user (actor w) r)
               (set_emitted (emitted w ++ [(stream_of h, line_of r (actor w))]) w))
  /\ (returns (alice_after_setup (fresh_world "/srv/app")) = true
      /\ emitted (world_of (alice_after_setup (fresh_world "/srv/app")))
         = [(Stderr, "2026-01-01 12:00:00 WARNING root user=alice disk low");
            (File "/srv/app/logs/app.log",
             "2026-01-01 12:00:00 WARNING root user=alice disk low");
            (Stderr, "2026-01-01 12:00:01 WARNING root user=- disk ok");
            (File "/srv/app/logs/app.log",
             "2026-01-01 12:00:01 WARNING root user=- disk ok")]).
Proof.
  split; [reflexivity |].
  split.
  { intros h r w Hh. destruct (sink_has_module_format h Hh) as [Hf Hfl].
    apply Handler_handle_module_sink; assumption. }
  split; vm_compute; reflexivity.
Qed.

(** A component sink handed a record inside the scope of "alice". *)
Lemma filter_stamps_actor_at_emission_witness :
  let w := world_of (set_log_user (Some "alice") (fresh_world "/srv/app")) in
  Handler_handle (module_handler "/srv/app/logs/billing.log" INFO)
    (mkRecord "billing" INFO "invoice sent" "2026-01-01 12:00:00" None) w
  = Ret (mkRecord "billing" INFO "invoice sent" "2026-01-01 12:00:00"
           (Some "alice"))
        (set_emitted
           [(File "/srv/app/logs/billing.log",
             "2026-01-01 12:00:00 INFO billing user=alice invoice sent")] w).
Proof.
  apply (proj1 (proj2 filter_stamps_actor_at_emission)
           (module_handler "/srv/app/logs/billing.log" INFO)).
  right. exists "/srv/app/logs/billing.log", INFO. reflexivity.
Defined.

(** C10. The empty string is as good as no argument: [set_log_user] of
    the empty string does what [set_log_user(None)] does and binds "-",
    and [get_logger] of the empty string does what [get_logger(None)] and
    [get_logger("app")] do, resolving to the logger named "app" and
    registering no logger under the empty name. *)
Theorem empty_string_is_absent :
  (forall w : World,
      set_log_user (Some "") w = set_log_user None w
      /\ ctx_current_user (world_of (set_log_user (Some "") w)) = Some "-")
  /\ (forall w : World,
         get_logger (Some "") w = get_logger None w
         /\ get_logger (Some "") w = get_logger (Some "app") w
         /\ (forall l w', get_logger (Some "") w = Ret l w' -> l = Named "app")
         /\ loggerDict (world_of (get_logger (Some "") w)) !! ""
            = loggerDict w !! "").
Proof.
  split.
  - intros w. split; reflexivity.
  - intros w. split; [reflexivity |]. split; [reflexivity |].
    split.
    + rewrite get_logger_eq. cbn zeta.
      destruct (_ensure_module_handler _ _ _); [| discriminate].
      intros l w' [= <- _]. reflexivity.
    + rewrite get_logger_eq. cbn zeta. rewrite ensure_module_handler_eq.
      change (pystr.or_default (Some "") "app") with "app".
      assert (Hreg : loggerDict (registered w "app") !! ""
                     = loggerDict w !! "").
      { unfold registered, logging_getLogger.
        change (negb (pystr.truthy "app") || bool_decide ("app" = "root"))
          with false. cbv iota.
        destruct (loggerDict w !! "app"); cbn [world_of]; [reflexivity |].
        cbn [loggerDict set_loggerDict].
        rewrite lookup_insert_ne by discriminate. reflexivity. }
      change (resolve "app") with (Named "app").
      repeat match goal with
             | |- context [if ?b then _ else _] => destruct b
             end;
        cbv zeta; try destruct (checkLevel _);
        cbn [world_of]; try exact Hreg.
      unfold attach, Logger_addHandler, update_logger.
      cbn [world_of loggerDict set_loggerDict].
      rewrite lookup_insert_ne by discriminate. exact Hreg.
Qed.

(** * Further properties of the module *)

(** ** Scopes that are not closed once and in order *)

Section TokenStore.

Implicit Types (w : World) (pre post : list TokenObj).

Lemma reset_log_user_at w pre post (t : TokenObj) :
  tokens w = pre ++ t :: post ->
  reset_log_user (length pre) w
  = if tok_used t
    then Raise (RuntimeError "Token has already been used once") w
    else Ret tt (set_ctx (tok_old_value t)
                         (pre ++ mkToken (tok_old_value t) true :: post) w).
Proof.
  intros Hts. unfold reset_log_user, ContextVar_reset.
  rewrite Hts, list_lookup_middle by reflexivity.
  destruct (tok_used t); [reflexivity |].
  rewrite insert_app_r_alt by lia. rewrite Nat.sub_diag. reflexivity.
Qed.

End TokenStore.

(** X1. A token is good for one [reset_log_user]: after [set_log_user] and
    a first reset, which returns and restores the prior binding, a second
    reset with the same token raises [RuntimeError] and leaves the world,
    and so the restored binding, as the first reset left it. *)
Theorem reset_log_user_twice_raises (w : World) (x : option string) :
  exists tok w1 w2,
    set_log_user x w = Ret tok w1
    /\ reset_log_user tok w1 = Ret tt w2
    /\ ctx_current_user w2 = ctx_current_user w
    /\ reset_log_user tok w2
       = Raise (RuntimeError "Token has already been used once") w2.
Proof.
  rewrite set_log_user_eq. eexists _, _, _. split; [reflexivity |].
  rewrite (reset_log_user_at _ (tokens w) [] (mkToken (ctx_current_user w) false))
    by reflexivity.
  cbn [tok_used tok_old_value]. split; [reflexivity |].
  split; [reflexivity |].
  rewrite (reset_log_user_at _ (tokens w) [] (mkToken (ctx_current_user w) true))
    by reflexivity.
  reflexivity.
Qed.

(** X2. Resets out of order do not restore: with a scope for [a] opened,
    a scope for [b] opened inside it, and the two tokens reset in the order
    of opening, both resets return; the first puts back the binding from
    before [a], and the second then binds the actor of [a] again, which
    stays current although both scopes are closed. *)
Theorem reset_log_user_out_of_order_leaves_outer_actor
    (w : World) (a b : option string) :
  exists t1 w1 t2 w2 w3 w4,
    set_log_user a w = Ret t1 w1
    /\ set_log_user b w1 = Ret t2 w2
    /\ reset_log_user t1 w2 = Ret tt w3
    /\ ctx_current_user w3 = ctx_current_user w
    /\ reset_log_user t2 w3 = Ret tt w4
    /\ ctx_current_user w4 = Some (pystr.or_default a "-")
    /\ ContextVar_get w4 = Ret (pystr.or_default a "-") w4.
Proof.
  rewrite set_log_user_eq. eexists _, _. eexists _, _, _, _.
  split; [reflexivity |].
  rewrite set_log_user_eq. cbn [tokens set_ctx ctx_current_user].
  split; [reflexivity |].
  rewrite (reset_log_user_at _ (tokens w)
             [mkToken (Some (pystr.or_default a "-")) false]
             (mkToken (ctx_current_user w) false))
    by (cbn; rewrite <- app_assoc; reflexivity).
  cbn [tok_used tok_old_value]. split; [reflexivity |].
  split; [reflexivity |].
  rewrite length_app. cbn [length].
  replace (length (tokens w) + 1)%nat
    with (length (tokens w ++ [mkToken (ctx_current_user w) true]))
    by (rewrite length_app; reflexivity).
  rewrite (reset_log_user_at _ (tokens w ++ [mkToken (ctx_current_user w) true])
             [] (mkToken (Some (pystr.or_default a "-")) false))
    by (cbn; rewrite <- app_assoc; reflexivity).
  cbn [tok_used tok_old_value].
  split; [reflexivity |]. split; reflexivity.
Qed.

(** ** Failures of root initialisation *)

Section RootFailures.

Implicit Types (w : World).

Lemma checkLevel_not_OSError (level : PyObj) (path : string) :
  checkLevel level <> inl (OSError path).
Proof.
  unfold checkLevel. destruct level; try destruct (nameToLevel _); discriminate.
Qed.


End RootFailures.

(** X3. A call of [setup_logging] that raises on a root logger without
    handlers attaches nothing: the root logger still has no handler, so a
    later call is not cut short by the test of [root.handlers]; named
    loggers, the actor and the delivered lines are untouched; and the
    exception is either an [OSError] for a path that the file system
    refuses or the error of [setLevel] on the configured level. *)
Theorem setup_logging_failure_attaches_nothing (w : World) (e : Exn) (w' : World) :
  l_handlers (root_logger w) = [] ->
  setup_logging w = Raise e w' ->
  l_handlers (root_logger w') = []
  /\ loggerDict w' = loggerDict w
  /\ ctx_current_user w' = ctx_current_user w
  /\ emitted w' = emitted w
  /\ ((exists path, e = OSError path /\ path ∈ fs_denied w)
      \/ checkLevel (log_level_of w) = inl e).
Proof.
  intros Hnil. rewrite (setup_logging_on_bare_root w Hnil).
  case_bool_decide as Hd.
  { intros [= <- <-]. repeat split; eauto. }
  destruct (checkLevel (log_level_of w)) as [e0 | level] eqn:Hck.
  { intros [= <- <-]. cbn. repeat split; auto. }
  cbv zeta. case_bool_decide as Ha.
  { intros [= <- <-]. cbn. repeat split; eauto. }
  case_bool_decide as He; [| discriminate].
  intros [= <- <-]. cbn. repeat split; eauto.
Qed.

(** error.log refused in a fresh interpreter. *)
Lemma setup_logging_failure_attaches_nothing_witness :
  let w := refusing "/srv/app/logs/error.log" in
  l_handlers (root_logger w) = []
  /\ setup_logging w
     = Raise (OSError "/srv/app/logs/error.log") (world_of (setup_logging w))
  /\ l_handlers (root_logger (world_of (setup_logging w))) = []
  /\ l_level (root_logger (world_of (setup_logging w))) = INFO.
Proof.
  cbv zeta.
  assert (Hrun : setup_logging (refusing "/srv/app/logs/error.log")
                 = Raise (OSError "/srv/app/logs/error.log")
                     (world_of (setup_logging
                                  (refusing "/srv/app/logs/error.log"))))
    by (vm_compute; reflexivity).
  split; [reflexivity |]. split; [exact Hrun |].
  split; [| vm_compute; reflexivity].
  apply (setup_logging_failure_attaches_nothing
           (refusing "/srv/app/logs/error.log") _ _ eq_refl Hrun).
Defined.





(** ** Rendering and delivery *)

(** X6. The format string of [_get_formatter] renders the five fields in
    the order time, level name, logger name, user=actor, message, and
    needs the [user] attribute: on a record that no filter has stamped the
    rendering fails, on a stamped record it is the line with that actor. *)
Theorem module_format_renders_stamped_records (r : LogRecord) :
  Formatter_format _get_formatter r = line_of r <$> r_user r.
Proof.
  destruct (r_user r) as [u |] eqn:Hu.
  - cbn. apply Formatter_format_line. exact Hu.
  - destruct r as [n l m a u']. cbn in Hu. subst u'.
    unfold Formatter_format, record_dict.
    cbn [r_name r_levelno r_message r_asctime r_user].
    generalize (getLevelName l). intros lv.
    vm_compute. reflexivity.
Qed.

Section Delivery2.

Implicit Types (w : World) (r : LogRecord) (hs : list Handler).

Lemma set_emitted_same w : set_emitted (emitted w) w = w.
Proof. destruct w; reflexivity. Qed.

Lemma set_emitted_twice w (e1 e2 : list (Stream * string)) :
  set_emitted e2 (set_emitted e1 w) = set_emitted e2 w.
Proof. reflexivity. Qed.

Lemma delivered_stamped hs r w (u : string) (e : list (Stream * string)) :
  delivered hs (with_user u r) (set_emitted e w) = delivered hs r w.
Proof. reflexivity. Qed.

Lemma delivered_cons (h : Handler) hs r w :
  delivered (h :: hs) r w
  = if level_admits h r
    then (stream_of h, line_of r (actor w)) :: delivered hs r w
    else delivered hs r w.
Proof. unfold delivered. cbn. destruct (level_admits h r); reflexivity. Qed.

Lemma root_log_disabled w (now : string) (lv : Z) (msg : string) :
  lv <= 0 \/ lv < l_level (root_logger w) ->
  root_log now lv msg w = Ret tt w.
Proof.
  intros Hlow. unfold root_log, bind, get_world.
  replace (negb (0 >=? lv) && (l_level (root_logger w) <=? lv)) with false;
    [reflexivity |].
  symmetry. apply andb_false_iff. destruct Hlow as [Hle | Hlt].
  - left. apply negb_false_iff. rewrite Z.geb_leb. apply Z.leb_le. exact Hle.
  - right. apply Z.leb_gt. exact Hlt.
Qed.

End Delivery2.

(** X7. Handlers configured as the module configures them (its formatter
    and its filter) receive a record as follows: every handler whose level
    is at most the level of the record is given one line, in the order of
    the handlers, all lines carrying the actor current at the call; no
    other handler is given anything; and the record comes back stamped
    with that actor as soon as one handler admitted it. *)
Theorem call_handlers_delivers_one_line_per_admitting_sink
    (hs : list Handler) (r : LogRecord) (w : World) :
  Forall module_sink hs ->
  call_handlers hs r w
  = Ret (if existsb (fun h => level_admits h r) hs
         then with_user (actor w) r else r)
        (set_emitted
           (emitted w
            ++ map (fun h => (stream_of h, line_of r (actor w)))
                   (List.filter (fun h => h_level h <=? r_levelno r) hs))
           w).
Proof.
  intros Hall.
  change (map _ (List.filter _ hs)) with (delivered hs r w).
  revert r w. induction Hall as [| h hs [Hf Hfl] _ IH]; intros r w.
  - cbn. rewrite app_nil_r, set_emitted_same. reflexivity.
  - cbn [call_handlers existsb]. rewrite delivered_cons. unfold bind.
    destruct (level_admits h r) eqn:Hadm.
    + rewrite (Handler_handle_module_sink h r w Hf Hfl). rewrite IH.
      rewrite delivered_stamped, set_emitted_twice.
      change (emitted (set_emitted (emitted w ++ [(stream_of h, line_of r (actor w))]) w))
        with (emitted w ++ [(stream_of h, line_of r (actor w))]).
      rewrite <- app_assoc. cbn [orb app]. f_equal.
      destruct (existsb _ hs); reflexivity.
    + unfold ret. rewrite IH. reflexivity.
Qed.

(** Three sinks at levels WARNING, INFO and ERROR given a WARNING record
    in the scope of "alice". *)
Lemma call_handlers_delivers_one_line_per_admitting_sink_witness :
  let w := world_of (set_log_user (Some "alice") (fresh_world "/srv/app")) in
  let r := mkRecord "jobs" WARNING "retry" "2026-01-01 12:00:00" None in
  let hs := [console_sink WARNING; module_handler "/a.log" INFO;
             module_handler "/e.log" ERROR] in
  Forall module_sink hs
  /\ emitted (world_of (call_handlers hs r w))
     = [(Stderr, "2026-01-01 12:00:00 WARNING jobs user=alice retry");
        (File "/a.log", "2026-01-01 12:00:00 WARNING jobs user=alice retry")].
Proof.
  cbv zeta.
  assert (Hall : Forall module_sink
                   [console_sink WARNING; module_handler "/a.log" INFO;
                    module_handler "/e.log" ERROR]).
  { repeat constructor. }
  split; [exact Hall |].
  rewrite (call_handlers_delivers_one_line_per_admitting_sink _ _ _ Hall).
  reflexivity.
Defined.

(** X8. After a successful root initialisation at level [level], a record
    logged on the root logger at level [lv] is dropped before any sink
    when [lv] is not positive or is below [level], even at ERROR or above
    when the configured level is higher; otherwise the console and
    app.log each receive its line, and error.log as well exactly when [lv]
    is ERROR or above. *)
Theorem root_log_routing_after_setup
    (w w' : World) (level : Z) (now : string) (lv : Z) (msg : string) :
  l_handlers (root_logger w) = [] ->
  setup_logging w = Ret tt w' ->
  checkLevel (log_level_of w) = inr level ->
  let line := line_of (root_record now lv msg) (actor w) in
  (lv <= 0 \/ lv < level -> root_log now lv msg w' = Ret tt w')
  /\ (0 < lv -> level <= lv -> lv < ERROR ->
      emitted (world_of (root_log now lv msg w'))
      = emitted w' ++ [(Stderr, line); (File (log_file_of w "app.log"), line)])
  /\ (0 < lv -> level <= lv -> ERROR <= lv ->
      emitted (world_of (root_log now lv msg w'))
      = emitted w' ++ [(Stderr, line); (File (log_file_of w "app.log"), line);
                       (File (log_file_of w "error.log"), line)]).
Proof.
  intros Hnil Hrun Hlv line.
  destruct (setup_logging_first w w' Hnil Hrun) as (level' & Hlv' & ->).
  rewrite Hlv in Hlv'. injection Hlv' as <-.
  split; [| split].
  - intros Hlow. apply root_log_disabled. exact Hlow.
  - intros Hpos Hle Hlt. rewrite root_log_after_setup by assumption.
    replace (ERROR <=? lv) with false by (symmetry; apply Z.leb_gt; exact Hlt).
    reflexivity.
  - intros Hpos Hle Hge. rewrite root_log_after_setup by assumption.
    replace (ERROR <=? lv) with true by (symmetry; apply Z.leb_le; exact Hge).
    reflexivity.
Qed.

(** LOG_LEVEL=CRITICAL: an ERROR record reaches no sink. *)
Lemma root_log_routing_after_setup_witness :
  let w := with_log_level "CRITICAL" in
  let w' := world_of (setup_logging w) in
  l_handlers (root_logger w) = []
  /\ setup_logging w = Ret tt w'
  /\ checkLevel (log_level_of w) = inr CRITICAL
  /\ root_log "2026-01-01 12:00:00" ERROR "boom" w' = Ret tt w'.
Proof.
  cbv zeta.
  assert (Hrun : setup_logging (with_log_level "CRITICAL")
                 = Ret tt (world_of (setup_logging (with_log_level "CRITICAL"))))
    by (vm_compute; reflexivity).
  split; [reflexivity |]. split; [exact Hrun |]. split; [reflexivity |].
  apply (root_log_routing_after_setup (with_log_level "CRITICAL") _ CRITICAL
           "2026-01-01 12:00:00" ERROR "boom" eq_refl Hrun eq_refl).
  right. unfold ERROR, CRITICAL. lia.
Defined.

(** ** What [get_logger] touches *)

Section ComponentFrame.

Implicit Types (w : World) (l : LoggerRef) (n : string).

Lemma registered_other w n l :
  l <> resolve n -> logger_of (registered w n) l = logger_of w l.
Proof.
  unfold registered, resolve, logging_getLogger.
  destruct (negb (pystr.truthy n) || bool_decide (n = "root"));
    [reflexivity |].
  intros Hne. destruct (loggerDict w !! n); [reflexivity |].
  destruct l as [| m]; [reflexivity |]. cbn.
  rewrite lookup_insert_ne by congruence. reflexivity.
Qed.

Lemma attach_other l (h : Handler) w (l' : LoggerRef) :
  l' <> l -> logger_of (attach l h w) l' = logger_of w l'.
Proof.
  intros Hne. destruct l as [| m]; destruct l' as [| m']; cbn;
    try reflexivity; try congruence.
  rewrite lookup_insert_ne by congruence. reflexivity.
Qed.

Lemma attach_level l (h : Handler) w :
  l_level (logger_of (attach l h w) l) = l_level (logger_of w l).
Proof.
  destruct l as [| m]; cbn; [reflexivity |].
  rewrite lookup_insert_eq. reflexivity.
Qed.

Lemma attach_rest l (h : Handler) w :
  ctx_current_user (attach l h w) = ctx_current_user w
  /\ tokens (attach l h w) = tokens w
  /\ emitted (attach l h w) = emitted w
  /\ fs_files (attach l h w) = fs_files w
  /\ fs_dirs (attach l h w) = fs_dirs w.
Proof. destruct l; repeat split; reflexivity. Qed.

Lemma registered_rest w n :
  ctx_current_user (registered w n) = ctx_current_user w
  /\ tokens (registered w n) = tokens w
  /\ emitted (registered w n) = emitted w
  /\ fs_files (registered w n) = fs_files w
  /\ fs_dirs (registered w n) = fs_dirs w.
Proof.
  unfold registered, logging_getLogger.
  destruct (negb (pystr.truthy n) || bool_decide (n = "root"));
    [repeat split; reflexivity |].
  destruct (loggerDict w !! n); repeat split; reflexivity.
Qed.

(** The handlers of the resolved logger after [get_logger], whatever the
    outcome: as before, or with one handler of the module more. *)
Lemma get_logger_handlers_cases w (name : option string) :
  let n := pystr.or_default name "app" in
  let hs := l_handlers (logger_of w (resolve n)) in
  let hs' := l_handlers (logger_of (world_of (get_logger name w)) (resolve n)) in
  hs' = hs
  \/ exists level, hs' = hs ++ [module_handler (component_file w n) level].
Proof.
  cbv zeta. rewrite get_logger_run. cbv zeta.
  set (n := pystr.or_default name "app").
  destruct (logger_of_after_registering w n
              ({[component_file w n]} ∪ fs_files (registered w n)))
    as [Hl1 Hl2].
  repeat match goal with
         | |- context [if ?b then _ else _] => destruct b
         end;
    try destruct (checkLevel _); cbn [world_of];
    rewrite ?attach_handlers, ?Hl1, ?Hl2, ?registered_logger_of; eauto.
Qed.

(** Loggers that [get_logger] did not resolve to are as before. *)
Lemma get_logger_other_logger w (name : option string) (other : LoggerRef) :
  other <> resolve (pystr.or_default name "app") ->
  logger_of (world_of (get_logger name w)) other = logger_of w other.
Proof.
  intros Hne. rewrite get_logger_run. cbv zeta.
  set (n := pystr.or_default name "app") in *.
  pose proof (registered_other w n other Hne) as Hother.
  repeat match goal with
         | |- context [if ?b then _ else _] => destruct b
         end;
    try destruct (checkLevel _); cbn [world_of]; try exact Hother.
  rewrite attach_other by exact Hne. exact Hother.
Qed.

End ComponentFrame.

(** X9. Whether it returns or raises, [get_logger] touches one logger
    only, and of that one only the handler list: every other logger, the
    root logger included, is as before; the level of the resolved logger
    is as before (NOTSET for a new one), so a component logger never gets
    a level of its own; and the actor, the tokens, the delivered lines and
    the environment are as before. *)
Theorem get_logger_touches_one_logger
    (w : World) (name : option string) (other : LoggerRef) :
  let n := pystr.or_default name "app" in
  let w' := world_of (get_logger name w) in
  (other <> resolve n -> logger_of w' other = logger_of w other)
  /\ l_level (logger_of w' (resolve n)) = l_level (logger_of w (resolve n))
  /\ ctx_current_user w' = ctx_current_user w
  /\ tokens w' = tokens w
  /\ emitted w' = emitted w
  /\ environ w' = environ w.
Proof.
  cbv zeta. split; [apply get_logger_other_logger |].
  set (n := pystr.or_default name "app").
  destruct (get_logger_config w name) as (Henv & _ & _).
  rewrite get_logger_run in *. cbv zeta in *. fold n in Henv |- *.
  destruct (registered_rest w n) as (Hc & Ht & He & _ & _).
  destruct (logger_of_after_registering w n
              ({[component_file w n]} ∪ fs_files (registered w n)))
    as [Hl1 Hl2].
  repeat match goal with
         | |- context [if ?b then _ else _] => destruct b
         end;
    try destruct (checkLevel _); cbn [world_of] in Henv |- *;
    (split; [| split; [| split; [| split]]]);
    try exact Henv; try exact Hc; try exact Ht; try exact He;
    rewrite ?registered_logger_of, ?Hl1, ?Hl2; try reflexivity.
  - rewrite attach_level, Hl2. reflexivity.
  - rewrite (proj1 (attach_rest _ _ _)). exact Hc.
  - rewrite (proj1 (proj2 (attach_rest _ _ _))). exact Ht.
  - rewrite (proj1 (proj2 (proj2 (attach_rest _ _ _)))). exact He.
Qed.

(** A component logger requested after root initialisation. *)
Lemma get_logger_touches_one_logger_witness :
  let w := world_of (setup_logging (fresh_world "/srv/app")) in
  let w' := world_of (get_logger (Some "billing") w) in
  Root <> resolve (pystr.or_default (Some "billing") "app")
  /\ logger_of w' Root = logger_of w Root
  /\ l_level (logger_of w' (Named "billing")) = NOTSET.
Proof.
  cbv zeta.
  assert (Hne : Root <> resolve (pystr.or_default (Some "billing") "app"))
    by discriminate.
  split; [exact Hne |].
  destruct (get_logger_touches_one_logger
              (world_of (setup_logging (fresh_world "/srv/app")))
              (Some "billing") Root) as (Hother & Hlevel & _).
  split; [exact (Hother Hne) |].
  change (Named "billing") with (resolve (pystr.or_default (Some "billing") "app")).
  rewrite Hlevel. reflexivity.
Defined.

(** ** Component loggers and root initialisation together *)

Section Together.

Implicit Types (w : World).

Lemma root_sinks_same_config w w1 (level : Z) :
  environ w1 = environ w -> cwd w1 = cwd w ->
  root_sinks w1 level = root_sinks w level.
Proof.
  intros He Hc. unfold root_sinks, log_file_of, log_dir_of.
  rewrite He, Hc. reflexivity.
Qed.

End Together.

(** X10. A component logger requested before root initialisation does not
    change what root initialisation does to the root logger: when the name
    does not resolve to the root logger and the root logger has no
    handler, [setup_logging] after [get_logger], whether that one returned
    or raised, succeeds whenever it would have succeeded before and leaves
    the same root logger. *)
Theorem get_logger_before_setup_logging_keeps_root_sinks
    (w : World) (name : option string) :
  resolve (pystr.or_default name "app") <> Root ->
  l_handlers (root_logger w) = [] ->
  returns (setup_logging w) = true ->
  let w1 := world_of (get_logger name w) in
  returns (setup_logging w1) = true
  /\ root_logger (world_of (setup_logging w1))
     = root_logger (world_of (setup_logging w)).
Proof.
  intros Hres Hnil Hret w1.
  destruct (get_logger_config w name) as (He & Hc & Hd). fold w1 in He, Hc, Hd.
  assert (Hroot : root_logger w1 = root_logger w).
  { apply (get_logger_other_logger w name Root). congruence. }
  assert (Hnil1 : l_handlers (root_logger w1) = []) by (rewrite Hroot; exact Hnil).
  revert Hret.
  rewrite (setup_logging_on_bare_root w Hnil).
  rewrite (setup_logging_on_bare_root w1 Hnil1).
  unfold log_dir_abs, log_file_of, log_level_of, log_dir_of.
  rewrite He, Hc, Hd.
  fold (log_dir_of w). fold (log_level_of w). fold (log_dir_abs w).
  fold (log_file_of w "app.log"). fold (log_file_of w "error.log").
  destruct (bool_decide (log_dir_abs w ∈ fs_denied w)); [discriminate |].
  destruct (checkLevel (log_level_of w)) as [e | level]; [discriminate |].
  cbv zeta.
  destruct (bool_decide (log_file_of w "app.log" ∈ fs_denied w)); [discriminate |].
  destruct (bool_decide (log_file_of w "error.log" ∈ fs_denied w)); [discriminate |].
  intros _. cbn [returns world_of]. split; [reflexivity |].
  cbn [after_setup root_logger set_root_logger]. f_equal.
  apply root_sinks_same_config; assumption.
Qed.

(** [get_logger("billing")] before root initialisation in a fresh
    interpreter. *)
Lemma get_logger_before_setup_logging_keeps_root_sinks_witness :
  let w := fresh_world "/srv/app" in
  let w1 := world_of (get_logger (Some "billing") w) in
  resolve (pystr.or_default (Some "billing") "app") <> Root
  /\ l_handlers (root_logger w) = []
  /\ returns (setup_logging w) = true
  /\ returns (setup_logging w1) = true
  /\ root_logger (world_of (setup_logging w1))
     = root_logger (world_of (setup_logging w)).
Proof.
  cbv zeta. split; [discriminate |]. split; [reflexivity |].
  split; [reflexivity |].
  apply (get_logger_before_setup_logging_keeps_root_sinks
           (fresh_world "/srv/app") (Some "billing"));
    [discriminate | reflexivity | reflexivity].
Defined.



(** X12. Once a rotating-file handler of the logger has the string of the
    module path as its [baseFilename], [get_logger] only makes the log
    directory: it returns whenever the directory can be made, attaches
    nothing and opens no file, whatever LOG_LEVEL says, even a value that
    is no level, and even if the component file could no longer be
    opened. *)
Theorem get_logger_found_sink_skips_level_and_file
    (w : World) (name : option string) :
  let n := pystr.or_default name "app" in
  existsb (targets (module_log_path_of (log_dir_of w) n))
          (l_handlers (logger_of w (resolve n))) = true ->
  log_dir_abs w ∉ fs_denied w ->
  let w' := world_of (get_logger name w) in
  get_logger name w = Ret (resolve n) w'
  /\ l_handlers (logger_of w' (resolve n)) = l_handlers (logger_of w (resolve n))
  /\ fs_files w' = fs_files w.
Proof.
  intros n Hex Hd. cbv zeta. rewrite get_logger_run. cbv zeta. fold n.
  rewrite bool_decide_eq_false_2 by exact Hd. rewrite Hex. cbn [world_of].
  split; [reflexivity |]. split.
  - apply f_equal. apply (proj1 (logger_of_after_registering w n ∅)).
  - cbn [fs_files with_log_dir set_fs_dirs].
    apply (registered_rest w n).
Qed.

(** LOG_DIR absolute, the sink of "billing" attached, then LOG_LEVEL set to
    a value that is no level. *)
Lemma get_logger_found_sink_skips_level_and_file_witness :
  let w := sink_then_bad_level in
  existsb (targets (module_log_path_of (log_dir_of w) "billing"))
          (l_handlers (logger_of w (Named "billing"))) = true
  /\ (log_dir_abs w ∉ fs_denied w)
  /\ (exists e, checkLevel (log_level_of w) = inl e)
  /\ returns (get_logger (Some "billing") w) = true
  /\ l_handlers (logger_of (world_of (get_logger (Some "billing") w))
                           (Named "billing"))
     = [module_handler "/var/log/app/billing.log" INFO].
Proof.
  cbv zeta.
  assert (Hex : existsb (targets (module_log_path_of
                                    (log_dir_of sink_then_bad_level) "billing"))
                  (l_handlers (logger_of sink_then_bad_level (Named "billing")))
                = true) by (vm_compute; reflexivity).
  assert (Hd : log_dir_abs sink_then_bad_level ∉ fs_denied sink_then_bad_level).
  { replace (fs_denied sink_then_bad_level) with (∅ : gset string)
      by (vm_compute; reflexivity).
    apply not_elem_of_empty. }
  split; [exact Hex |]. split; [exact Hd |].
  split; [eexists; vm_compute; reflexivity |].
  destruct (get_logger_found_sink_skips_level_and_file sink_then_bad_level
              (Some "billing") Hex Hd) as (Hrun & Hhs & _).
  split; [rewrite Hrun; reflexivity |].
  change (Named "billing")
    with (resolve (pystr.or_default (Some "billing") "app")).
  rewrite Hhs. vm_compute. reflexivity.
Defined.

(** X13. Every call of [setup_logging] or [get_logger] that returns has
    made the log directory, also the calls that attach nothing. *)
Theorem returning_calls_make_log_dir (w : World) :
  (returns (setup_logging w) = true ->
   log_dir_abs w ∈ fs_dirs (world_of (setup_logging w)))
  /\ (forall name : option string,
         returns (get_logger name w) = true ->
         log_dir_abs w ∈ fs_dirs (world_of (get_logger name w))).
Proof.
  split.
  - intros Hret.
    destruct (setup_logging w) as [[] w' | e w'] eqn:Hrun; [| discriminate].
    cbn [world_of].
    destruct (decide (l_handlers (root_logger w) = [])) as [Hnil | Hne].
    + destruct (setup_logging_first w w' Hnil Hrun) as (level & _ & ->).
      cbn [after_setup fs_dirs set_root_logger set_fs_files with_log_dir
           set_fs_dirs].
      apply elem_of_union_l, elem_of_singleton. reflexivity.
    + rewrite (setup_logging_again w Hne) in Hrun.
      destruct (bool_decide (log_dir_abs w ∈ fs_denied w)); [discriminate |].
      injection Hrun as <-. cbn [fs_dirs with_log_dir set_fs_dirs].
      apply elem_of_union_l, elem_of_singleton. reflexivity.
  - intros name. rewrite get_logger_run. cbv zeta.
    set (n := pystr.or_default name "app").
    destruct (registered_reads w n) as (_ & _ & Habs & _).
    assert (Hin : log_dir_abs w ∈ fs_dirs (with_log_dir (registered w n))).
    { cbn [fs_dirs with_log_dir set_fs_dirs]. rewrite Habs.
      apply elem_of_union_l, elem_of_singleton. reflexivity. }
    repeat match goal with
           | |- context [if ?b then _ else _] => destruct b
           end;
      try destruct (checkLevel _); cbn [returns world_of];
      try discriminate; intros _; try exact Hin.
    rewrite (proj2 (proj2 (proj2 (proj2 (attach_rest _ _ _))))).
    exact Hin.
Qed.

(** The second of two calls of [setup_logging], which attaches nothing. *)
Lemma returning_calls_make_log_dir_witness :
  let w := after_setup (fresh_world "/srv/app") INFO in
  returns (setup_logging w) = true
  /\ "/srv/app/logs" ∈ fs_dirs (world_of (setup_logging w)).
Proof.
  cbv zeta. split; [reflexivity |].
  apply (proj1 (returning_calls_make_log_dir
                  (after_setup (fresh_world "/srv/app") INFO))).
  reflexivity.
Defined.

(** ** An invariant of the handler lists *)

Section SinkInvariant.

Implicit Types (w : World).

Lemma module_handler_is_module_sink (file : string) (level : Z) :
  module_sink (module_handler file level).
Proof. split; reflexivity. Qed.

Lemma root_sinks_are_module_sinks w (level : Z) :
  Forall module_sink (root_sinks w level).
Proof. repeat constructor. Qed.

Lemma setup_logging_named_loggers w :
  loggerDict (world_of (setup_logging w)) = loggerDict w.
Proof.
  destruct (decide (l_handlers (root_logger w) = [])) as [Hnil | Hne].
  - rewrite (setup_logging_on_bare_root w Hnil).
    repeat match goal with
           | |- context [if ?b then _ else _] => destruct b
           | |- context [match checkLevel ?x with _ => _ end] =>
               destruct (checkLevel x)
           end; reflexivity.
  - rewrite (setup_logging_again w Hne).
    destruct (bool_decide _); reflexivity.
Qed.

Lemma setup_logging_root_handlers w :
  l_handlers (root_logger (world_of (setup_logging w))) = l_handlers (root_logger w)
  \/ exists level,
      l_handlers (root_logger (world_of (setup_logging w))) = root_sinks w level.
Proof.
  destruct (decide (l_handlers (root_logger w) = [])) as [Hnil | Hne].
  - rewrite (setup_logging_on_bare_root w Hnil).
    repeat match goal with
           | |- context [if ?b then _ else _] => destruct b
           | |- context [match checkLevel ?x with _ => _ end] =>
               destruct (checkLevel x)
           end; cbn; rewrite ?Hnil; eauto.
  - rewrite (setup_logging_again w Hne).
    destruct (bool_decide _); left; reflexivity.
Qed.

Lemma LoggerRef_eq_or_neq (a b : LoggerRef) : a = b \/ a <> b.
Proof.
  destruct a as [| n], b as [| m];
    try (left; reflexivity); try (right; discriminate).
  destruct (decide (n = m)); [left; congruence | right; congruence].
Qed.

End SinkInvariant.

(** X14. Every handler that the module leaves on a logger has the
    module's formatter and the actor filter: if that holds for all
    handlers of all loggers before a call of [setup_logging] or
    [get_logger], it holds after the call, whether the call returned or
    raised.  So no record reaches a sink of the module without being
    stamped with the actor first. *)
Theorem handlers_stay_module_sinks (w : World) :
  (forall l, Forall module_sink (l_handlers (logger_of w l))) ->
  (forall l, Forall module_sink
               (l_handlers (logger_of (world_of (setup_logging w)) l)))
  /\ (forall name l, Forall module_sink
                       (l_handlers (logger_of (world_of (get_logger name w)) l))).
Proof.
  intros Hinv. split.
  - intros [| n].
    + cbn [logger_of].
      destruct (setup_logging_root_handlers w) as [-> | [level ->]].
      * exact (Hinv Root).
      * apply root_sinks_are_module_sinks.
    + cbn [logger_of]. rewrite setup_logging_named_loggers.
      exact (Hinv (Named n)).
  - intros name l.
    destruct (LoggerRef_eq_or_neq l (resolve (pystr.or_default name "app")))
      as [-> | Hne].
    + destruct (get_logger_handlers_cases w name) as [Hsame | [level Hmore]];
        cbv zeta in *.
      * rewrite Hsame. apply Hinv.
      * rewrite Hmore. apply Forall_app. split; [apply Hinv |].
        constructor; [apply module_handler_is_module_sink | constructor].
    + rewrite get_logger_other_logger by exact Hne. apply Hinv.
Qed.

(** A fresh interpreter has no handler at all. *)
Lemma handlers_stay_module_sinks_witness :
  (forall l, Forall module_sink (l_handlers (logger_of (fresh_world "/srv/app") l)))
  /\ Forall module_sink
       (l_handlers (logger_of (world_of (get_logger (Some "billing")
                                           (fresh_world "/srv/app")))
                              (Named "billing"))).
Proof.
  assert (Hinv : forall l, Forall module_sink
                             (l_handlers (logger_of (fresh_world "/srv/app") l))).
  { intros [| n]; cbn; [constructor |]. rewrite lookup_empty. constructor. }
  split; [exact Hinv |].
  apply (proj2 (handlers_stay_module_sinks (fresh_world "/srv/app") Hinv)).
Defined.

(** ** Sanitised names *)

Section CleanNames.

Lemma sanitize_char_idempotent (c : ascii) :
  sanitize_char (sanitize_char c) = sanitize_char c.
Proof. destruct c as [[] [] [] [] [] [] [] []]; reflexivity. Qed.

Lemma sanitize_char_fixed (c : ascii) :
  sanitize_char c = c
  <-> pystr.eqb_char c "/" = false /\ pystr.eqb_char c "\" = false
      /\ pystr.eqb_char c "." = false.
Proof.
  destruct c as [[] [] [] [] [] [] [] []]; cbn;
    split; intros H; try reflexivity; try discriminate H;
    try (repeat split; reflexivity);
    destruct H as (H1 & H2 & H3); discriminate.
Qed.

Lemma clean_name_cons (c : ascii) (s : string) :
  clean_name (String c s) = true
  <-> sanitize_char c = c /\ clean_name s = true.
Proof.
  rewrite sanitize_char_fixed. unfold clean_name. cbn [has_char].
  rewrite !negb_orb, !andb_true_iff, !negb_true_iff. tauto.
Qed.

End CleanNames.

(** X15. Sanitising is a projection onto the names without "/", "\" and
    ".": a sanitised name has none of the three characters, a name is left
    unchanged exactly when it has none of them, sanitising twice is
    sanitising once, and the length of the name is kept. *)
Theorem safe_name_of_is_a_projection (name : string) :
  clean_name (safe_name_of name) = true
  /\ (safe_name_of name = name <-> clean_name name = true)
  /\ safe_name_of (safe_name_of name) = safe_name_of name
  /\ String.length (safe_name_of name) = String.length name.
Proof.
  induction name as [| c s (IH1 & IH2 & IH3 & IH4)].
  - repeat split; reflexivity.
  - rewrite !safe_name_of_cons. split; [| split; [| split]].
    + apply clean_name_cons. split; [apply sanitize_char_idempotent | exact IH1].
    + rewrite clean_name_cons. split.
      * intros [= Hc Hs]. split; [exact Hc | apply IH2; exact Hs].
      * intros [Hc Hs]. rewrite Hc. f_equal. apply IH2. exact Hs.
    + rewrite sanitize_char_idempotent, IH3. reflexivity.
    + cbn. f_equal. exact IH4.
Qed.
